(** * git-keeper: the submission test-execution engine

    A shallow embedding of [gkeepserver/submission.py]: the [Submission]
    class ([run_tests], [_add_report], the three sandbox command builders,
    the two precondition emails), [write_run_action_sh] and
    [report_failure].

    Python strings are [string]; the filesystem the program observes is a
    finite set of directories and a finite map from file paths to contents;
    every collaborator that lives outside the module (git wrappers, system
    commands, the database, the environment descriptor loader, ...) is a field
    of a [World] record that says, for each call, whether it returns or
    raises. *)

From Stdlib Require Import Ascii String List.
From stdpp Require Import base decidable option list strings pretty gmap.

(** ** Python string helpers *)

Module Py.

Definition nl : string := String (ascii_of_nat 10) EmptyString.
Definition dquote : string := String (ascii_of_nat 34) EmptyString.

(** [str(n)] for a non-negative [int]. *)
Definition str_N (n : N) : string := pretty n.

Definition is_sep (c : ascii) : bool := bool_decide (c = "/"%char).

Definition startswith_sep (s : string) : bool :=
  match s with
  | String c _ => is_sep c
  | EmptyString => false
  end.

Fixpoint endswith_sep (s : string) : bool :=
  match s with
  | EmptyString => false
  | String c EmptyString => is_sep c
  | String _ s' => endswith_sep s'
  end.

Definition is_empty (s : string) : bool :=
  match s with EmptyString => true | _ => false end.

(** [os.path.join(a, b)] of [posixpath]: an absolute [b] replaces [a];
    a separator is inserted unless [a] is empty or already ends in one. *)
Definition os_path_join (a b : string) : string :=
  if startswith_sep b then b
  else if is_empty a || endswith_sep a then a +:+ b
  else a +:+ "/" +:+ b.

(** Whitespace of [str.split()] in the ASCII range. *)
Definition is_space (c : ascii) : bool :=
  let n := nat_of_ascii c in
  (Nat.leb 9 n && Nat.leb n 13) || (Nat.leb 28 n && Nat.leb n 32).

Fixpoint split_go (cur : option string) (s : string) : list string :=
  match s with
  | EmptyString => option_list (String.rev <$> cur)
  | String c s' =>
      if is_space c
      then (option_list (String.rev <$> cur) ++ split_go None s')%list
      else split_go (Some (String c (default EmptyString cur))) s'
  end.

(** [s.split()]: the maximal runs of non-whitespace characters. *)
Definition split (s : string) : list string := split_go None s.

Fixpoint assoc (k : string) (kw : list (string * string)) : option string :=
  match kw with
  | [] => None
  | (k', v) :: kw' => if bool_decide (k = k') then Some v else assoc k kw'
  end.

(** [template.format] with keyword arguments [kw], for named fields
    without conversions or format specs: [{name}] is replaced by the value as it is (the value is not
    scanned again), [{{] and [}}] are literal braces; a lone [}] or an
    unclosed [{] is a [ValueError] and a missing name a [KeyError]
    ([None]). *)
Fixpoint format_go (t : string) (kw : list (string * string))
    (field : option string) : option string :=
  match t with
  | EmptyString =>
      match field with None => Some EmptyString | Some _ => None end
  | String c t' =>
      match field with
      | Some name =>
          if bool_decide (c = "}"%char)
          then v ← assoc (String.rev name) kw;
               r ← format_go t' kw None;
               Some (v +:+ r)
          else format_go t' kw (Some (String c name))
      | None =>
          if bool_decide (c = "{"%char) then
            match t' with
            | String c' t'' =>
                if bool_decide (c' = "{"%char)
                then String c <$> format_go t'' kw None
                else format_go t' kw (Some EmptyString)
            | EmptyString => None
            end
          else if bool_decide (c = "}"%char) then
            match t' with
            | String c' t'' =>
                if bool_decide (c' = "}"%char)
                then String c <$> format_go t'' kw None
                else None
            | EmptyString => None
            end
          else String c <$> format_go t' kw None
      end
  end.

Definition format (t : string) (kw : list (string * string)) : option string :=
  format_go t kw None.

(** A field of [strftime] printed on at least two digits ([%m], [%d],
    [%H], [%M], [%S]). *)
Definition two_digits (n : N) : string :=
  if bool_decide (n < 10)%N then "0" +:+ str_N n else str_N n.

End Py.

(** ** Data model *)

(** Modelled from the spec: [gkeepcore.student.Student] is not part of the
    module; the spec gives its fields (username, email, first and last name)
    and the report directory name [<last>_<first>_<username>]. *)
Record Student := {
  username : string;
  email_address : string;
  first_name : string;
  last_name : string;
}.

(** Modelled from the spec: [Student.get_last_first_username], the name of
    the student's report directory. *)
Definition get_last_first_username (s : Student) : string :=
  last_name s +:+ "_" +:+ first_name s +:+ "_" +:+ username s.

(** Modelled from the spec: [gkeepserver.assignments.AssignmentDirectory],
    with the attributes [Submission.__init__] reads. *)
Record AssignmentDirectory := {
  path : string;
  class_name : string;
  assignment_name : string;
  tests_path : string;
  reports_repo_path : string;
  test_env_path : string;
}.

(** The attributes assigned by [Submission.__init__]; those copied from the
    assignment directory are read through [assignment_dir]. *)
Record Submission := {
  assignment_dir : AssignmentDirectory;
  student : Student;
  student_repo_path : string;
  commit_hash : string;
  faculty_username : string;
  faculty_email : string;
}.

(** Modelled from the spec: [gkeepcore.test_env_yaml.TestEnvType] has the
    three known kinds; [OTHER] stands for any value of the [type] attribute
    that is none of them, carrying its [str()]. *)
Inductive TestEnvType :=
| HOST
| FIREJAIL
| DOCKER
| OTHER (shown : string).

Definition TestEnvType_str (t : TestEnvType) : string :=
  match t with
  | HOST => "TestEnvType.HOST"
  | FIREJAIL => "TestEnvType.FIREJAIL"
  | DOCKER => "TestEnvType.DOCKER"
  | OTHER shown => shown
  end.

Record TestEnv := {
  type : TestEnvType;
  image : string;
  append_args : option string;
}.

(** Modelled from the spec: the configuration values the module reads. *)
Record Config := {
  tester_user : string;
  keeper_group : string;
  tests_timeout : N;
  tests_memory_limit : N;
}.

(** Modelled from the spec: [gkeepserver.server_email.Email], a recipient
    address, a subject, a body (a text or a list of lines) and the flag for
    preformatted content. *)
Inductive EmailBody :=
| Text (s : string)
| Lines (l : list string).

Record Email := {
  to_address : string;
  subject : string;
  body : EmailBody;
  html_pre_body : bool;
}.

(** The broken-down local time [strftime] formats. *)
Record struct_time := {
  tm_year : N;
  tm_mon : N;
  tm_mday : N;
  tm_hour : N;
  tm_min : N;
  tm_sec : N;
  tm_zone : string;
}.

(** [strftime('%Y-%m-%d_%H-%M-%S-%Z')] *)
Definition strftime_report (t : struct_time) : string :=
  Py.str_N (tm_year t) +:+ "-" +:+ Py.two_digits (tm_mon t) +:+ "-" +:+
  Py.two_digits (tm_mday t) +:+ "_" +:+ Py.two_digits (tm_hour t) +:+ "-" +:+
  Py.two_digits (tm_min t) +:+ "-" +:+ Py.two_digits (tm_sec t) +:+ "-" +:+
  tm_zone t.

(** ** Effects

    A call to a collaborator either returns a value or raises; an exception
    is represented by its [str()], the only thing the module reads of it.
    Only subclasses of [Exception] are modelled. *)

Inductive outcome (A : Type) :=
| Returns (a : A)
| Raises (message : string).
Arguments Returns {A} a.
Arguments Raises {A} message.

(** The observable actions of a run, in the order they happen. An event of
    a fallible call records the attempt. [EvReportFailure] marks the entry of
    [report_failure] with its arguments. *)
Inductive event :=
| EvLog (level message : string)
| EvMkdtemp (dir prefix : string)
| EvChmod (p mode : string)
| EvGitClone (src dst : string)
| EvGitCheckout (repo commit : string)
| EvGetLock (p : string)
| EvReleaseLock (p : string)
| EvCp (src dst : string) (recursive : bool)
| EvTestEnv (p : string)
| EvTemporaryDirectory
| EvGetActionScript (tests : string)
| EvWrite (p contents : string)
| EvMv (src dst : string) (sudo : bool)
| EvSudoChown (p user group : string) (recursive : bool)
| EvRunCommand (cmd : list string)
| EvEmail (e : Email)
| EvScan (faculty class assignment student_username : string)
| EvReportFailure (assignment : string) (s : Student)
    (faculty_address message : string)
| EvReportsClone (a : AssignmentDirectory)
| EvReportsRelease (p : string)
| EvMakedirs (p : string)
| EvGitAddAll (p : string)
| EvGitCommit (p message : string)
| EvRm (p : string) (recursive sudo : bool).

(** The part of the machine a run reads and writes: the directories and the
    files that exist, and the trace of events so far. *)
Record State := {
  dirs : gset string;
  files : gmap string string;
  trace : list event;
}.

Definition log (ev : event) (s : State) : State :=
  {| dirs := dirs s; files := files s; trace := trace s ++ [ev] |}.

(** The collaborators. Each fallible one answers from the state it is called
    in and its arguments. *)
Record World := {
  config : Config;
  w_user_home_dir : string → string;
  w_time : State → N;
  w_localtime : State → struct_time;
  w_parse_submission_repo_path :
    State → string → outcome (string * string * string);
  w_class_is_open : State → string → string → outcome bool;
  w_is_disabled : State → string → string → string → outcome bool;
  w_mkdtemp : State → string → string → outcome string;
  w_chmod : State → string → string → outcome unit;
  w_git_clone : State → string → string → outcome unit;
  w_git_checkout : State → string → string → outcome unit;
  w_get_lock : State → string → outcome unit;
  w_cp : State → string → string → bool → outcome unit;
  w_TestEnv : State → string → outcome TestEnv;
  w_TemporaryDirectory : State → outcome string;
  w_get_action_script_and_interpreter :
    State → string → outcome (option string * option string);
  w_open_write : State → string → string → outcome unit;
  w_mv : State → string → string → bool → outcome unit;
  w_sudo_chown : State → string → string → string → bool → outcome unit;
  w_run_command : State → list string → outcome string;
  w_reports_clone : State → AssignmentDirectory → outcome string;
  w_reports_release : State → string → outcome unit;
  w_makedirs : State → string → outcome unit;
  w_git_add_all : State → string → outcome unit;
  w_git_commit : State → string → string → outcome unit;
  w_rm : State → string → bool → bool → outcome unit;
}.

(** How a computation ends: with a value, with an exception, or never (the
    [while] loop of [_add_report] out of fuel). *)
Inductive result (A : Type) :=
| Ok (a : A)
| Err (message : string)
| Diverges.
Arguments Ok {A} a.
Arguments Err {A} message.
Arguments Diverges {A}.

Definition M (A : Type) : Type := State → result A * State.

Definition ret {A} (a : A) : M A := λ s, (Ok a, s).

Definition raise {A} (message : string) : M A := λ s, (Err message, s).

Definition bind {A B} (m : M A) (f : A → M B) : M B :=
  λ s, match m s with
       | (Ok a, s') => f a s'
       | (Err e, s') => (Err e, s')
       | (Diverges, s') => (Diverges, s')
       end.

Notation "x <- m ;; k" := (bind m (λ x, k))
  (at level 100, m at next level, right associativity).
Notation "m ;;; k" := (bind m (λ _, k))
  (at level 100, right associativity).

(** [try: m except Exception as e: h(str(e))] *)
Definition try_except {A} (m : M A) (h : string → M A) : M A :=
  λ s, match m s with
       | (Err e, s') => h e s'
       | other => other
       end.

(** Run [m], then [fin] on every exit of [m] that is a return or a raise
    (the [__exit__] of a context manager): an exception of [fin] replaces
    the one of [m]. *)
Definition finally {A} (m : M A) (fin : M unit) : M A :=
  λ s, match m s with
       | (Diverges, s') => (Diverges, s')
       | (r, s') =>
           match fin s' with
           | (Ok _, s'') => (r, s'')
           | (Err e, s'') => (Err e, s'')
           | (Diverges, s'') => (Diverges, s'')
           end
       end.

(** A fallible call: the event is recorded, then the world answers. *)
Definition call {A} (ev : event) (answer : State → outcome A) : M A :=
  λ s, match answer s with
       | Returns a => (Ok a, log ev s)
       | Raises e => (Err e, log ev s)
       end.

(** A query that leaves no event. *)
Definition ask {A} (answer : State → outcome A) : M A :=
  λ s, match answer s with
       | Returns a => (Ok a, s)
       | Raises e => (Err e, s)
       end.

Definition emit (ev : event) : M unit := λ s, (Ok tt, log ev s).

Definition get {A} (f : State → A) : M A := λ s, (Ok (f s), s).

Definition modify (f : State → State) : M unit := λ s, (Ok tt, f s).

(** ** The filesystem as the program sees it *)

Definition os_path_isdir (p : string) (s : State) : bool :=
  bool_decide (p ∈ dirs s).

Definition os_path_exists (p : string) (s : State) : bool :=
  bool_decide (p ∈ dirs s) || bool_decide (p ∈ dom (files s)).

Definition is_under (d p : string) : bool :=
  String.prefix (d +:+ "/") p.

Definition add_dir (p : string) (s : State) : State :=
  {| dirs := {[p]} ∪ dirs s; files := files s; trace := trace s |}.

Definition write_file (p contents : string) (s : State) : State :=
  {| dirs := dirs s; files := <[p := contents]> (files s); trace := trace s |}.

Fixpoint basename_go (cur s : string) : string :=
  match s with
  | EmptyString => cur
  | String c s' => if Py.is_sep c then basename_go s' s' else basename_go cur s'
  end.

(** What follows the last separator. *)
Definition basename (p : string) : string := basename_go p p.

(** Where [mv src dst] puts the file: into [dst] if that is a directory. *)
Definition mv_target (src dst : string) (s : State) : string :=
  if os_path_isdir dst s then Py.os_path_join dst (basename src) else dst.

Definition move_file (src dst : string) (s : State) : State :=
  match files s !! src with
  | Some contents =>
      {| dirs := dirs s;
         files := <[mv_target src dst s := contents]> (delete src (files s));
         trace := trace s |}
  | None => s
  end.

(** [rm -r p]: [p] and everything below it is gone. *)
Definition remove_tree (p : string) (s : State) : State :=
  {| dirs := filter (λ d, d ≠ p ∧ is_under p d = false) (dirs s);
     files := filter (λ kv, kv.1 ≠ p ∧ is_under p kv.1 = false) (files s);
     trace := trace s |}.

(** ** The program *)

(** The text of [template] in [write_run_action_sh], line by line. *)
Definition run_action_template : string :=
  "#!/bin/bash" +:+ Py.nl +:+
  "{cd_command}" +:+ Py.nl +:+
  "GLOBAL_TIMEOUT={global_timeout}" +:+ Py.nl +:+
  "GLOBAL_MEM_LIMIT_MB={global_memory_limit}" +:+ Py.nl +:+
  "GLOBAL_MEM_LIMIT_KB=$(($GLOBAL_MEM_LIMIT_MB * 1024))" +:+ Py.nl +:+
  "ulimit -v $GLOBAL_MEM_LIMIT_KB" +:+ Py.nl +:+
  "trap 'kill -INT -$pid' INT" +:+ Py.nl +:+
  "timeout $GLOBAL_TIMEOUT {interpreter} {script_name} " +:+
    Py.dquote +:+ "$@" +:+ Py.dquote +:+ " &" +:+ Py.nl +:+
  "pid=$!" +:+ Py.nl +:+
  "wait $pid" +:+ Py.nl.

Section Program.

Context (w : World).

(** *** Collaborators, as the module calls them *)

Definition user_home_dir (user : string) : string := w_user_home_dir w user.

Definition parse_submission_repo_path (p : string)
  : M (string * string * string) :=
  ask (λ s, w_parse_submission_repo_path w s p).

Definition class_is_open (class faculty : string) : M bool :=
  ask (λ s, w_class_is_open w s class faculty).

Definition is_disabled (class assignment faculty : string) : M bool :=
  ask (λ s, w_is_disabled w s class assignment faculty).

Definition log_debug (message : string) : M unit := emit (EvLog "debug" message).

Definition log_info (message : string) : M unit := emit (EvLog "info" message).

Definition email_enqueue (e : Email) : M unit := emit (EvEmail e).

Definition enqueue_submission_scan (faculty class assignment user : string)
  : M unit :=
  emit (EvScan faculty class assignment user).

Definition mkdtemp (dir prefix : string) : M string :=
  p <- call (EvMkdtemp dir prefix) (λ s, w_mkdtemp w s dir prefix) ;;
  modify (add_dir p) ;;;
  ret p.

Definition chmod (p mode : string) : M unit :=
  call (EvChmod p mode) (λ s, w_chmod w s p mode).

Definition git_clone (src dst : string) : M unit :=
  call (EvGitClone src dst) (λ s, w_git_clone w s src dst).

Definition git_checkout (repo commit : string) : M unit :=
  call (EvGitCheckout repo commit) (λ s, w_git_checkout w s repo commit).

(** [with directory_locks.get_lock(p): body] *)
Definition with_lock {A} (p : string) (body : M A) : M A :=
  call (EvGetLock p) (λ s, w_get_lock w s p) ;;;
  finally body (emit (EvReleaseLock p)).

Definition cp (src dst : string) (recursive : bool) : M unit :=
  call (EvCp src dst recursive) (λ s, w_cp w s src dst recursive).

Definition TestEnv_load (p : string) : M TestEnv :=
  call (EvTestEnv p) (λ s, w_TestEnv w s p).

(** The directory of a [TemporaryDirectory] is reclaimed by its finalizer
    and is not tracked in [dirs]. *)
Definition TemporaryDirectory : M string :=
  call EvTemporaryDirectory (w_TemporaryDirectory w).

Definition get_action_script_and_interpreter (tests : string)
  : M (option string * option string) :=
  call (EvGetActionScript tests)
    (λ s, w_get_action_script_and_interpreter w s tests).

(** [with open(p, 'w') as f: f.write(contents)] *)
Definition open_write (p contents : string) : M unit :=
  call (EvWrite p contents) (λ s, w_open_write w s p contents) ;;;
  modify (write_file p contents).

Definition mv (src dst : string) (sudo : bool) : M unit :=
  call (EvMv src dst sudo) (λ s, w_mv w s src dst sudo) ;;;
  modify (move_file src dst).

Definition sudo_chown (p user group : string) (recursive : bool) : M unit :=
  call (EvSudoChown p user group recursive)
    (λ s, w_sudo_chown w s p user group recursive).

Definition run_command (cmd : list string) : M string :=
  call (EvRunCommand cmd) (λ s, w_run_command w s cmd).

(** [with reports_clone(a) as p: body p] *)
Definition reports_clone {A} (a : AssignmentDirectory) (body : string → M A)
  : M A :=
  p <- call (EvReportsClone a) (λ s, w_reports_clone w s a) ;;
  finally (body p)
    (call (EvReportsRelease p) (λ s, w_reports_release w s p)).

(** [os.makedirs(p, exist_ok=True)] *)
Definition makedirs (p : string) : M unit :=
  call (EvMakedirs p) (λ s, w_makedirs w s p) ;;;
  modify (add_dir p).

Definition git_add_all (p : string) : M unit :=
  call (EvGitAddAll p) (λ s, w_git_add_all w s p).

Definition git_commit (p message : string) : M unit :=
  call (EvGitCommit p message) (λ s, w_git_commit w s p message).

Definition rm (p : string) (recursive sudo : bool) : M unit :=
  call (EvRm p recursive sudo) (λ s, w_rm w s p recursive sudo) ;;;
  modify (remove_tree p).

(** *** [write_run_action_sh] *)

Definition write_run_action_sh (dest_path tests_path : string)
    (run_path : option string) : M unit :=
  temp_dir_path <- TemporaryDirectory ;;
  let temp_run_action_sh_path :=
    Py.os_path_join temp_dir_path "run_action.sh" in
  let cd_command :=
    match run_path with
    | None => EmptyString
    | Some run_path => "cd " +:+ run_path +:+ "/tests"
    end in
  found <- get_action_script_and_interpreter tests_path ;;
  match found with
  | (Some script_name, Some interpreter) =>
      match Py.format run_action_template
              [("cd_command", cd_command);
               ("global_timeout", Py.str_N (tests_timeout (config w)));
               ("global_memory_limit",
                Py.str_N (tests_memory_limit (config w)));
               ("interpreter", interpreter);
               ("script_name", script_name)] with
      | Some run_action_sh_contents =>
          open_write temp_run_action_sh_path run_action_sh_contents ;;;
          mv temp_run_action_sh_path dest_path true
      | None => raise "format"
      end
  | _ => raise "No valid action script found"
  end.

(** *** [report_failure] *)

Definition report_failure (assignment : string) (student : Student)
    (faculty_email message : string) : M unit :=
  emit (EvReportFailure assignment student faculty_email message) ;;;
  let s_subject :=
    assignment +:+ ": Failed to process submission - contact instructor" in
  let s_body :=
    ["Your submission was received, but something went wrong.";
     "This is likely your instructor's fault, not yours.";
     "Please contact your instructor about this error!"] in
  email_enqueue
    {| to_address := email_address student; subject := s_subject;
       body := Lines s_body; html_pre_body := false |} ;;;
  let f_subject := "git-keeper run_tests failure" in
  let f_body :=
    ["student: " +:+ first_name student +:+ " " +:+ last_name student;
     "email: " +:+ email_address student;
     "assignment " +:+ assignment;
     "further information:";
     message] in
  email_enqueue
    {| to_address := faculty_email; subject := f_subject;
       body := Lines f_body; html_pre_body := false |}.

(** *** [Submission] *)

Context (self : Submission).

Definition _make_docker_command (temp_path assignment_name container_image
    : string) : list string :=
  ["docker"; "run"; "-v";
   temp_path +:+ ":/git-keeper-tester";
   container_image; "bash";
   "/git-keeper-tester/run_action.sh";
   Py.os_path_join "/git-keeper-tester/" assignment_name;
   username (student self); email_address (student self);
   last_name (student self); first_name (student self)].

Definition _make_host_command (temp_run_action_sh_path temp_assignment_path
    : string) : list string :=
  ["sudo"; "--user"; tester_user (config w); "--set-home"; "bash";
   temp_run_action_sh_path; temp_assignment_path;
   username (student self); email_address (student self);
   last_name (student self); first_name (student self)].

Definition _make_firejail_command (temp_path assignment_name : string)
    (append_args : option string) : list string :=
  let tester_home := user_home_dir (tester_user (config w)) in
  let cmd :=
    ["sudo"; "--user"; tester_user (config w); "--set-home";
     "firejail"; "--noprofile"; "--quiet";
     "--private=" +:+ temp_path] in
  let cmd :=
    match append_args with
    | Some append_args => (cmd ++ Py.split append_args)%list
    | None => cmd
    end in
  (cmd ++ ["bash"; Py.os_path_join tester_home "run_action.sh";
           Py.os_path_join tester_home assignment_name;
           username (student self); email_address (student self);
           last_name (student self); first_name (student self)])%list.

Definition _send_closed_email (class_name assignment_name : string) : M unit :=
  let subject := "[" +:+ class_name +:+ "] class is closed" in
  let body :=
    "You have pushed a submission for a class that is is closed." in
  email_enqueue
    {| to_address := email_address (student self); subject := subject;
       body := Text body; html_pre_body := false |} ;;;
  log_info (username (student self) +:+ " pushed to " +:+ assignment_name
            +:+ " in " +:+ class_name +:+ ", which is closed").

Definition _send_disabled_email (class_name assignment_name : string)
  : M unit :=
  let subject :=
    "[" +:+ class_name +:+ "] assignment " +:+ assignment_name
    +:+ " is disabled" in
  let body :=
    "You have pushed a submission for assignment " +:+ assignment_name
    +:+ " which is disabled. No tests were run on your submission." in
  email_enqueue
    {| to_address := email_address (student self); subject := subject;
       body := Text body; html_pre_body := false |} ;;;
  log_info (username (student self) +:+ " pushed to " +:+ assignment_name
            +:+ " in " +:+ class_name +:+ ", which is disabled").

(** ['report-{0}.txt'] and ['report-{0}-{1}.txt'] *)
Definition report_filename (timestamp : string) (counter : option N) : string :=
  match counter with
  | None => "report-" +:+ timestamp +:+ ".txt"
  | Some counter =>
      "report-" +:+ timestamp +:+ "-" +:+ Py.str_N counter +:+ ".txt"
  end.

(** The [while os.path.exists(report_file_path)] loop, on the state it
    reads; [None] when the fuel runs out. *)
Fixpoint fresh_report_path (fuel : nat) (s : State)
    (student_report_dir_path timestamp report_file_path : string)
    (counter : N) : option string :=
  match fuel with
  | O => None
  | S fuel =>
      if os_path_exists report_file_path s
      then fresh_report_path fuel s student_report_dir_path timestamp
             (Py.os_path_join student_report_dir_path
                (report_filename timestamp (Some counter)))
             (counter + 1)%N
      else Some report_file_path
  end.

(** Fuel that the loop never exhausts (see [fresh_report_path_total]). *)
Definition enough_fuel (s : State) : nat :=
  S (S (size (dirs s ∪ dom (files s)))).

Definition _add_report (body : string) : M unit :=
  reports_clone (assignment_dir self) (λ temp_reports_repo_path,
    let last_first_username := get_last_first_username (student self) in
    let student_report_dir_path :=
      Py.os_path_join temp_reports_repo_path last_first_username in
    makedirs student_report_dir_path ;;;
    timestamp <- get (λ s, strftime_report (w_localtime w s)) ;;
    let report_file_path :=
      Py.os_path_join student_report_dir_path
        (report_filename timestamp None) in
    found <- get (λ s, fresh_report_path (enough_fuel s) s
                         student_report_dir_path timestamp
                         report_file_path 1%N) ;;
    match found with
    | None => λ s, (Diverges, s)
    | Some report_file_path =>
        open_write report_file_path body ;;;
        let reports_commit_message :=
          "Submission report for " +:+ last_first_username in
        git_add_all temp_reports_repo_path ;;;
        git_commit temp_reports_repo_path reports_commit_message
    end).

(** Lines 104-138 of [run_tests]: the temporary directory, the clone, the
    checkout, the copy of the tests, the run script and the change of
    owner. Returns [temp_path], [temp_run_action_sh_path] and
    [temp_assignment_path]. *)
Definition run_tests_prepare (assignment_name' : string)
  : M (string * string * string) :=
  now <- get (w_time w) ;;
  temp_path <- mkdtemp (user_home_dir (tester_user (config w)))
                 (Py.str_N now +:+ "_") ;;
  chmod temp_path "770" ;;;
  let temp_assignment_path := Py.os_path_join temp_path assignment_name' in
  git_clone (student_repo_path self) temp_path ;;;
  git_checkout temp_assignment_path (commit_hash self) ;;;
  with_lock (path (assignment_dir self))
    (cp (tests_path (assignment_dir self)) temp_path true ;;;
     present <- get (os_path_exists (test_env_path (assignment_dir self))) ;;
     if present : bool
     then cp (test_env_path (assignment_dir self)) temp_path false
     else ret tt) ;;;
  let temp_run_action_sh_path := Py.os_path_join temp_path "run_action.sh" in
  test_env <- TestEnv_load (Py.os_path_join temp_path "test_env.yaml") ;;
  match type test_env with
  | FIREJAIL =>
      write_run_action_sh temp_run_action_sh_path
        (tests_path (assignment_dir self))
        (Some (user_home_dir (tester_user (config w))))
  | DOCKER =>
      write_run_action_sh temp_run_action_sh_path
        (tests_path (assignment_dir self)) None
  | _ =>
      write_run_action_sh temp_run_action_sh_path
        (tests_path (assignment_dir self)) (Some temp_path)
  end ;;;
  let temp_assignment_path := Py.os_path_join temp_path assignment_name' in
  sudo_chown temp_path (tester_user (config w)) (keeper_group (config w))
    true ;;;
  ret (temp_path, temp_run_action_sh_path, temp_assignment_path).

(** Lines 142-159: the environment is resolved and the command built. *)
Definition run_tests_make_cmd (assignment_name' temp_path
    temp_run_action_sh_path temp_assignment_path : string)
  : M (list string) :=
  test_env <- TestEnv_load (test_env_path (assignment_dir self)) ;;
  match type test_env with
  | DOCKER =>
      let pull_cmd := ["docker"; "pull"; image test_env] in
      run_command pull_cmd ;;;
      ret (_make_docker_command temp_path assignment_name' (image test_env))
  | FIREJAIL =>
      ret (_make_firejail_command temp_path assignment_name'
             (append_args test_env))
  | HOST =>
      ret (_make_host_command temp_run_action_sh_path temp_assignment_path)
  | OTHER _ =>
      raise ("Unknown test env type " +:+ TestEnvType_str (type test_env))
  end.

(** Lines 142-175: the body of the [try]. *)
Definition run_tests_execute (faculty_username' class_name' assignment_name'
    temp_path temp_run_action_sh_path temp_assignment_path : string)
  : M unit :=
  cmd <- run_tests_make_cmd assignment_name' temp_path
           temp_run_action_sh_path temp_assignment_path ;;
  body <- run_command cmd ;;
  let subject :=
    "[" +:+ class_name' +:+ "] " +:+ assignment_name'
    +:+ " submission test results" in
  email_enqueue
    {| to_address := email_address (student self); subject := subject;
       body := Text body; html_pre_body := true |} ;;;
  if bool_decide (username (student self) ≠ faculty_username')
  then
    with_lock (path (assignment_dir self)) (_add_report body) ;;;
    enqueue_submission_scan (faculty_username self)
      (class_name (assignment_dir self))
      (assignment_name (assignment_dir self))
      (username (student self))
  else ret tt.

(** Lines 181-185: the removal of the temporary directory. *)
Definition run_tests_cleanup (temp_path : string) : M unit :=
  isdir <- get (os_path_isdir temp_path) ;;
  (if isdir : bool then rm temp_path true true else ret tt) ;;;
  log_debug ("Done running tests on " +:+ student_repo_path self).

(** Lines 141-185: the [try], its handler and the removal of the
    temporary directory. *)
Definition run_tests_guarded (faculty_username' class_name' assignment_name'
    temp_path temp_run_action_sh_path temp_assignment_path : string)
  : M unit :=
  try_except
    (run_tests_execute faculty_username' class_name' assignment_name'
       temp_path temp_run_action_sh_path temp_assignment_path)
    (λ e, report_failure assignment_name' (student self)
            (faculty_email self) e) ;;;
  run_tests_cleanup temp_path.

Definition run_tests : M unit :=
  parsed <- parse_submission_repo_path (student_repo_path self) ;;
  let '(faculty_username', class_name', assignment_name') := parsed in
  open <- class_is_open class_name' faculty_username' ;;
  if negb open then _send_closed_email class_name' assignment_name'
  else
    disabled <- is_disabled class_name' assignment_name' faculty_username' ;;
    if disabled : bool
    then _send_disabled_email class_name' assignment_name'
    else
      log_debug ("Running tests on " +:+ student_repo_path self) ;;;
      paths <- run_tests_prepare assignment_name' ;;
      let '(temp_path, temp_run_action_sh_path, temp_assignment_path) :=
        paths in
      run_tests_guarded faculty_username' class_name' assignment_name'
        temp_path temp_run_action_sh_path temp_assignment_path.

End Program.

(** ** Concrete scenarios

    A world in which every collaborator succeeds, with the knobs the
    examples below turn: the environment descriptor, and the answers of
    [git_clone], [get_action_script_and_interpreter], [run_command] and
    [git_commit]. *)

Module Scenario.

Record knobs := {
  k_repo : string * string * string;
  k_env : TestEnv;
  k_clone : outcome unit;
  k_action : option string * option string;
  k_chown : outcome unit;
  k_run : outcome string;
  k_commit : outcome unit;
}.

Definition cfg : Config :=
  {| tester_user := "tester"; keeper_group := "keeper";
     tests_timeout := 300; tests_memory_limit := 1024 |}.

Definition noon : struct_time :=
  {| tm_year := 2018; tm_mon := 3; tm_mday := 7; tm_hour := 12;
     tm_min := 0; tm_sec := 9; tm_zone := "UTC" |}.

Definition world (k : knobs) : World :=
  {| config := cfg;
     w_user_home_dir := λ user, "/home/" +:+ user;
     w_time := λ _, 1520424009%N;
     w_localtime := λ _, noon;
     w_parse_submission_repo_path := λ _ _, Returns (k_repo k);
     w_class_is_open := λ _ class _, Returns (bool_decide (class = "cs1"));
     w_is_disabled := λ _ _ assignment _,
       Returns (bool_decide (assignment = "hw0"));
     w_mkdtemp := λ _ dir prefix, Returns (dir +:+ "/" +:+ prefix +:+ "x");
     w_chmod := λ _ _ _, Returns tt;
     w_git_clone := λ _ _ _, k_clone k;
     w_git_checkout := λ _ _ _, Returns tt;
     w_get_lock := λ _ _, Returns tt;
     w_cp := λ _ _ _ _, Returns tt;
     w_TestEnv := λ _ _, Returns (k_env k);
     w_TemporaryDirectory := λ _, Returns "/tmp/t";
     w_get_action_script_and_interpreter := λ _ _, Returns (k_action k);
     w_open_write := λ _ _ _, Returns tt;
     w_mv := λ _ _ _ _, Returns tt;
     w_sudo_chown := λ _ _ _ _ _, k_chown k;
     w_run_command := λ _ _, k_run k;
     w_reports_clone := λ _ _, Returns "/reports";
     w_reports_release := λ _ _, Returns tt;
     w_makedirs := λ _ _, Returns tt;
     w_git_add_all := λ _ _, Returns tt;
     w_git_commit := λ _ _ _, k_commit k;
     w_rm := λ _ _ _ _, Returns tt |}.

Definition env (t : TestEnvType) : TestEnv :=
  {| type := t; image := "python:3"; append_args := Some "--net=none" |}.

Definition fine (t : TestEnvType) : knobs :=
  {| k_repo := ("prof", "cs1", "hw1"); k_env := env t;
     k_clone := Returns tt;
     k_action := (Some "action.sh", Some "bash"); k_chown := Returns tt;
     k_run := Returns "all tests passed"; k_commit := Returns tt |}.

Definition hw (class assignment : string) : AssignmentDirectory :=
  {| path := "/home/prof/" +:+ class +:+ "/" +:+ assignment;
     class_name := class; assignment_name := assignment;
     tests_path := "/home/prof/" +:+ class +:+ "/" +:+ assignment +:+ "/tests";
     reports_repo_path :=
       "/home/prof/" +:+ class +:+ "/" +:+ assignment +:+ "/reports.git";
     test_env_path :=
       "/home/prof/" +:+ class +:+ "/" +:+ assignment +:+ "/test_env.yaml" |}.

Definition alice : Student :=
  {| username := "alice"; email_address := "alice@school.edu";
     first_name := "Alice"; last_name := "Liddell" |}.

Definition prof : Student :=
  {| username := "prof"; email_address := "prof@school.edu";
     first_name := "Pat"; last_name := "Prof" |}.

Definition submission (who : Student) : Submission :=
  {| assignment_dir := hw "cs1" "hw1"; student := who;
     student_repo_path := "/home/alice/prof/cs1/hw1.git";
     commit_hash := "c0ffee"; faculty_username := "prof";
     faculty_email := "prof@school.edu" |}.

Definition start : State := {| dirs := ∅; files := ∅; trace := [] |}.

(** The same world with one answer changed. *)
Definition with_repo (repo : string * string * string) (k : knobs) : knobs :=
  {| k_repo := repo; k_env := k_env k; k_clone := k_clone k;
     k_action := k_action k; k_chown := k_chown k; k_run := k_run k;
     k_commit := k_commit k |}.

Definition with_clone (o : outcome unit) (k : knobs) : knobs :=
  {| k_repo := k_repo k; k_env := k_env k; k_clone := o;
     k_action := k_action k; k_chown := k_chown k; k_run := k_run k;
     k_commit := k_commit k |}.

Definition with_action (a : option string * option string) (k : knobs)
  : knobs :=
  {| k_repo := k_repo k; k_env := k_env k; k_clone := k_clone k;
     k_action := a; k_chown := k_chown k; k_run := k_run k;
     k_commit := k_commit k |}.

Definition with_chown (o : outcome unit) (k : knobs) : knobs :=
  {| k_repo := k_repo k; k_env := k_env k; k_clone := k_clone k;
     k_action := k_action k; k_chown := o; k_run := k_run k;
     k_commit := k_commit k |}.

Definition with_run (o : outcome string) (k : knobs) : knobs :=
  {| k_repo := k_repo k; k_env := k_env k; k_clone := k_clone k;
     k_action := k_action k; k_chown := k_chown k; k_run := o;
     k_commit := k_commit k |}.

Definition with_commit (o : outcome unit) (k : knobs) : knobs :=
  {| k_repo := k_repo k; k_env := k_env k; k_clone := k_clone k;
     k_action := k_action k; k_chown := k_chown k; k_run := k_run k;
     k_commit := o |}.

(** The temporary directory of these worlds, the run script in it and the
    checked-out assignment. *)
Definition temp : string := "/home/tester/1520424009_x".
Definition temp_sh : string := "/home/tester/1520424009_x/run_action.sh".
Definition temp_hw : string := "/home/tester/1520424009_x/hw1".

(** The state in which the preparation leaves a run started in [start]. *)
Definition prepared (k : knobs) (who : Student) : State :=
  (run_tests_prepare (world k) (submission who) "hw1"
     (log (EvLog "debug" "Running tests on /home/alice/prof/cs1/hw1.git")
        start)).2.

End Scenario.

(** ** The robot keywords

    [gkeeprobot/keywords/ClientCheckKeywords.py]: each keyword runs one
    client command through [client_control.run] and passes (returns) or
    fails (raises). The exceptions are told apart by their class;
    [ExitCodeException] and [GkeepRobotException] are unrelated classes. *)

Module Robot.

Inductive exception :=
| ExitCodeException (message : string)
| GkeepRobotException (message : string)
| AssertionError
| OtherException (message : string).

Inductive answer (A : Type) :=
| Returned (a : A)
| Raised (e : exception).
Arguments Returned {A} a.
Arguments Raised {A} e.

(** [client_control.run(user, cmd)]: the output of the command, or an
    exception ([ExitCodeException] when the command exits with a non-zero
    status). *)
Definition Client : Type := string → string → answer string.

Definition and_then {A B} (m : answer A) (f : A → answer B) : answer B :=
  match m with
  | Returned a => f a
  | Raised e => Raised e
  end.

(** [try: body except ExitCodeException: pass] *)
Definition try_except_ExitCodeException (body : answer unit) : answer unit :=
  match body with
  | Raised (ExitCodeException _) => Returned tt
  | other => other
  end.

(** [sub in s] for strings. *)
Fixpoint contains (sub s : string) : bool :=
  String.prefix sub s
  || match s with
     | EmptyString => false
     | String _ s' => contains sub s'
     end.

(** [assert c] *)
Definition assert (c : bool) : answer unit :=
  if c then Returned tt else Raised AssertionError.

Section Keywords.

Context (run : Client).

Definition gkeep_add_succeeds (faculty class_name : string) : answer unit :=
  and_then
    (run faculty ("gkeep add " +:+ class_name +:+ " " +:+ class_name +:+ ".csv"))
    (λ _, Returned tt).

Definition gkeep_add_no_csv_succeeds (faculty class_name : string)
  : answer unit :=
  and_then (run faculty ("gkeep add " +:+ class_name)) (λ _, Returned tt).

Definition gkeep_add_fails (faculty class_name : string) : answer unit :=
  try_except_ExitCodeException
    (let cmd :=
       "gkeep add " +:+ class_name +:+ " " +:+ class_name +:+ ".csv" in
     and_then (run faculty cmd)
       (λ _, Raised (GkeepRobotException
                       "gkeep add should have non-zero return"))).

Definition gkeep_modify_succeeds (faculty class_name : string) : answer unit :=
  let cmd :=
    "gkeep modify " +:+ class_name +:+ " " +:+ class_name +:+ ".csv" in
  and_then (run faculty cmd) (λ _, Returned tt).

Definition gkeep_modify_fails (faculty class_name : string) : answer unit :=
  try_except_ExitCodeException
    (let cmd :=
       "gkeep modify " +:+ class_name +:+ " " +:+ class_name +:+ ".csv" in
     and_then (run faculty cmd)
       (λ _, Raised (GkeepRobotException
                       "gkeep modify should have non-zero return"))).

Fixpoint assert_each_in (results : string) (expected_strings : list string)
  : answer unit :=
  match expected_strings with
  | [] => Returned tt
  | expected :: rest =>
      and_then (assert (contains expected results))
        (λ _, assert_each_in results rest)
  end.

Fixpoint assert_each_not_in (results : string)
    (forbidden_strings : list string) : answer unit :=
  match forbidden_strings with
  | [] => Returned tt
  | forbidden :: rest =>
      and_then (assert (negb (contains forbidden results)))
        (λ _, assert_each_not_in results rest)
  end.

Definition gkeep_query_contains (faculty sub_command : string)
    (expected_strings : list string) : answer unit :=
  let cmd := "gkeep query " +:+ sub_command in
  and_then (run faculty cmd)
    (λ results, assert_each_in results expected_strings).

Definition gkeep_query_does_not_contain (faculty sub_command : string)
    (forbidden_strings : list string) : answer unit :=
  let cmd := "gkeep query " +:+ sub_command in
  and_then (run faculty cmd)
    (λ results, assert_each_not_in results forbidden_strings).

(** The command both [gkeep_add_faculty] keywords build. *)
Definition add_faculty_command (new_faculty : string) : string :=
  let last_name := "Professor" in
  let first_name := "Doctor" in
  let email_address := new_faculty +:+ "@school.edu" in
  "gkeep add_faculty " +:+ last_name +:+ " " +:+ first_name +:+ " "
  +:+ email_address.

Definition gkeep_add_faculty_succeeds (admin new_faculty : string)
  : answer unit :=
  and_then (run admin (add_faculty_command new_faculty)) (λ _, Returned tt).

Definition gkeep_add_faculty_fails (admin new_faculty : string)
  : answer unit :=
  try_except_ExitCodeException
    (and_then (run admin (add_faculty_command new_faculty))
       (λ _, let error := "gkeep add_faculty should have non-zero return" in
             Raised (GkeepRobotException error))).

Definition gkeep_upload_succeeds (faculty course_name assignment_name : string)
  : answer unit :=
  and_then
    (run faculty ("gkeep upload " +:+ course_name +:+ " " +:+ assignment_name))
    (λ _, Returned tt).

Definition gkeep_upload_fails (faculty course_name assignment_name : string)
  : answer unit :=
  try_except_ExitCodeException
    (and_then
       (run faculty
          ("gkeep upload " +:+ course_name +:+ " " +:+ assignment_name))
       (λ _, let error := "gkeep upload should have non-zero return" in
             Raised (GkeepRobotException error))).

Definition gkeep_publish_succeeds (faculty course_name assignment_name : string)
  : answer unit :=
  and_then
    (run faculty ("gkeep publish " +:+ course_name +:+ " " +:+ assignment_name))
    (λ _, Returned tt).

Definition gkeep_publish_fails (faculty course_name assignment_name : string)
  : answer unit :=
  try_except_ExitCodeException
    (and_then
       (run faculty
          ("gkeep publish " +:+ course_name +:+ " " +:+ assignment_name))
       (λ _, let error := "gkeep publish should have non-zero return" in
             Raised (GkeepRobotException error))).

Definition gkeep_trigger_succeeds (faculty course_name assignment_name : string)
    (student_name : option string) : answer unit :=
  match student_name with
  | None =>
      and_then
        (run faculty
           ("gkeep trigger " +:+ course_name +:+ " " +:+ assignment_name))
        (λ _, Returned tt)
  | Some student_name =>
      and_then
        (run faculty
           ("gkeep trigger " +:+ course_name +:+ " " +:+ assignment_name
            +:+ " " +:+ student_name))
        (λ _, Returned tt)
  end.

Definition gkeep_trigger_fails (faculty course_name assignment_name : string)
    (student_name : option string) : answer unit :=
  let cmd :=
    match student_name with
    | None => "gkeep trigger " +:+ course_name +:+ " " +:+ assignment_name
    | Some student_name =>
        "gkeep trigger " +:+ course_name +:+ " " +:+ assignment_name
        +:+ " " +:+ student_name
    end in
  try_except_ExitCodeException
    (and_then (run faculty cmd)
       (λ _, let error := "gkeep trigger should have non-zero return" in
             Raised (GkeepRobotException error))).

End Keywords.

(** A keyword passes when it returns. *)
Definition passes (r : answer unit) : Prop := r = Returned tt.

(** [sub] occurs in [s]. *)
Definition occurs_in (sub s : string) : Prop :=
  ∃ before after, s = before +:+ sub +:+ after.

(** How a [_succeeds] keyword and its [_fails] keyword end for one answer of
    the command they both run: exactly one passes when the command returns
    or exits with a non-zero status, and an exception of another class
    leaves both. *)
Definition opposite (command : answer string) (verb : string)
    (succeeds fails : answer unit) : Prop :=
  match command with
  | Returned _ =>
      succeeds = Returned tt
      ∧ fails = Raised (GkeepRobotException
                          (verb +:+ " should have non-zero return"))
  | Raised (ExitCodeException message) =>
      succeeds = Raised (ExitCodeException message) ∧ fails = Returned tt
  | Raised e => succeeds = Raised e ∧ fails = Raised e
  end.

(** A client for the examples: [gkeep add] of an existing class exits with
    a non-zero status, a query prints the classes, anything else prints
    nothing. *)
Definition sample_client : Client :=
  λ user cmd,
    if bool_decide (cmd = "gkeep add cs1 cs1.csv")
    then Raised (ExitCodeException "class cs1 already exists")
    else if bool_decide (cmd = "gkeep query classes")
    then Returned "cs1 cs2"
    else Returned EmptyString.

End Robot.

(** ** Vocabulary of the statements *)

(** Every run of [m] appends to the trace, and only events in [P]. *)
Definition emits {A} (P : event → Prop) (m : M A) : Prop :=
  ∀ s r s', m s = (r, s') →
    ∃ evs, trace s' = trace s ++ evs ∧ Forall P evs.

(** [m] always ends, with a value or an exception. *)
Definition terminates {A} (m : M A) : Prop :=
  ∀ s, (m s).1 ≠ Diverges.

Definition is_spawn (ev : event) : bool :=
  match ev with EvRunCommand _ => true | _ => false end.

Definition is_report_failure (ev : event) : bool :=
  match ev with EvReportFailure _ _ _ _ => true | _ => false end.

Definition is_email (ev : event) : bool :=
  match ev with EvEmail _ => true | _ => false end.

Definition is_scan (ev : event) : bool :=
  match ev with EvScan _ _ _ _ => true | _ => false end.

(** The events of the Report Recorder, whose first action is the clone of
    the reports repository. *)
Definition is_report_recorder (ev : event) : bool :=
  match ev with
  | EvReportsClone _ | EvMakedirs _ | EvGitAddAll _ | EvGitCommit _ _
  | EvReportsRelease _ => true
  | _ => false
  end.

(** The events of fetching and testing a submission. *)
Definition is_clone_checkout_or_test (ev : event) : bool :=
  match ev with
  | EvMkdtemp _ _ | EvGitClone _ _ | EvGitCheckout _ _ | EvCp _ _ _
  | EvRunCommand _ => true
  | _ => false
  end.

(** A write of the run script, as opposed to a write of a report. *)
Definition writes_only_run_script (ev : event) : Prop :=
  match ev with
  | EvWrite p _ => ∃ d, p = Py.os_path_join d "run_action.sh"
  | _ => True
  end.

Definition count (f : event → bool) (evs : list event) : nat :=
  length (filter (λ ev, f ev = true) evs).

(** The run passes the precondition check in [s0] and the preparation
    (lines 104-138) returns in [s1]: control stands before the [try]. *)
Definition reaches_try (w : World) (self : Submission) (s0 : State)
    (faculty class assignment temp_path run_sh temp_assignment : string)
    (s1 : State) : Prop :=
  w_parse_submission_repo_path w s0 (student_repo_path self)
    = Returns (faculty, class, assignment)
  ∧ w_class_is_open w s0 class faculty = Returns true
  ∧ w_is_disabled w s0 class assignment faculty = Returns false
  ∧ run_tests_prepare w self assignment
      (log (EvLog "debug" ("Running tests on " +:+ student_repo_path self)) s0)
    = (Ok (temp_path, run_sh, temp_assignment), s1).

(** The result email of line 166. *)
Definition result_email (self : Submission) (class assignment body : string)
  : Email :=
  {| to_address := email_address (student self);
     subject := "[" +:+ class +:+ "] " +:+ assignment
                +:+ " submission test results";
     body := Text body; html_pre_body := true |}.

(** The two messages of [report_failure]. *)
Definition apology_email (assignment : string) (student : Student) : Email :=
  {| to_address := email_address student;
     subject := assignment
                +:+ ": Failed to process submission - contact instructor";
     body := Lines
       ["Your submission was received, but something went wrong.";
        "This is likely your instructor's fault, not yours.";
        "Please contact your instructor about this error!"];
     html_pre_body := false |}.

Definition diagnostic_email (assignment : string) (student : Student)
    (faculty_address message : string) : Email :=
  {| to_address := faculty_address;
     subject := "git-keeper run_tests failure";
     body := Lines
       ["student: " +:+ first_name student +:+ " " +:+ last_name student;
        "email: " +:+ email_address student;
        "assignment " +:+ assignment;
        "further information:";
        message];
     html_pre_body := false |}.

Definition failure_events (assignment : string) (student : Student)
    (faculty_address message : string) : list event :=
  [EvReportFailure assignment student faculty_address message;
   EvEmail (apology_email assignment student);
   EvEmail (diagnostic_email assignment student faculty_address message)].

(** The run script as the interface describes it, for a [cd] line, a timeout
    in seconds, a memory ceiling in megabytes, an interpreter and a script. *)
Definition run_action_sh_text (cd_line : string) (seconds megabytes : N)
    (interpreter script_name : string) : string :=
  "#!/bin/bash" +:+ Py.nl +:+
  cd_line +:+ Py.nl +:+
  "GLOBAL_TIMEOUT=" +:+ Py.str_N seconds +:+ Py.nl +:+
  "GLOBAL_MEM_LIMIT_MB=" +:+ Py.str_N megabytes +:+ Py.nl +:+
  "GLOBAL_MEM_LIMIT_KB=$(($GLOBAL_MEM_LIMIT_MB * 1024))" +:+ Py.nl +:+
  "ulimit -v $GLOBAL_MEM_LIMIT_KB" +:+ Py.nl +:+
  "trap 'kill -INT -$pid' INT" +:+ Py.nl +:+
  "timeout $GLOBAL_TIMEOUT " +:+ interpreter +:+ " " +:+ script_name +:+ " "
    +:+ Py.dquote +:+ "$@" +:+ Py.dquote +:+ " &" +:+ Py.nl +:+
  "pid=$!" +:+ Py.nl +:+
  "wait $pid" +:+ Py.nl.

Definition cd_line (run_path : option string) : string :=
  match run_path with
  | None => EmptyString
  | Some run_path => "cd " +:+ run_path +:+ "/tests"
  end.

(** The arguments every sandbox passes after its own prefix, for the root
    under which the sandbox sees the temporary directory. *)
Definition script_invocation (self : Submission) (root assignment : string)
  : list string :=
  ["bash"; Py.os_path_join root "run_action.sh";
   Py.os_path_join root assignment;
   username (student self); email_address (student self);
   last_name (student self); first_name (student self)].

(** What [os.path.join] puts between a directory and a relative name. *)
Definition joint (a : string) : string :=
  if Py.is_empty a || Py.endswith_sep a then EmptyString else "/".

(** The names [_add_report] tries in a student's report directory at a
    timestamp: the plain one, then the numbered ones. *)
Definition base_path (dir ts : string) : string :=
  Py.os_path_join dir (report_filename ts None).

Definition numbered_path (dir ts : string) (k : N) : string :=
  Py.os_path_join dir (report_filename ts (Some k)).

(** What the preparation and the cleanup may record: no test process, no
    failure report, nothing of the Report Recorder, no scan notification, no
    email, and no write other than the run script. *)
Definition quiet (ev : event) : Prop :=
  is_spawn ev = false ∧ is_report_failure ev = false
  ∧ is_report_recorder ev = false ∧ is_scan ev = false
  ∧ is_email ev = false ∧ writes_only_run_script ev.

(** What a run without report may record. *)
Definition no_report (ev : event) : Prop :=
  is_report_recorder ev = false ∧ is_scan ev = false
  ∧ writes_only_run_script ev.

(** What a run may record when no run script can be generated: no write,
    no move, no test process and no failure report. *)
Definition nothing_produced (ev : event) : Prop :=
  match ev with
  | EvWrite _ _ | EvMv _ _ _ | EvRunCommand _ | EvReportFailure _ _ _ _ =>
      False
  | _ => True
  end.

(** The test assets at [tests] hold no action script with an interpreter. *)
Definition no_action_script (w : World) (tests : string) : Prop :=
  ∀ s, ∃ script_name interpreter,
    w_get_action_script_and_interpreter w s tests
      = Returns (script_name, interpreter)
    ∧ (script_name = None ∨ interpreter = None).

(** The emails of the precondition check. *)
Definition closed_email (self : Submission) (class : string) : Email :=
  {| to_address := email_address (student self);
     subject := "[" +:+ class +:+ "] class is closed";
     body := Text "You have pushed a submission for a class that is is closed.";
     html_pre_body := false |}.

Definition disabled_email (self : Submission) (class assignment : string)
  : Email :=
  {| to_address := email_address (student self);
     subject := "[" +:+ class +:+ "] assignment " +:+ assignment
                +:+ " is disabled";
     body := Text ("You have pushed a submission for assignment "
                   +:+ assignment
                   +:+ " which is disabled. No tests were run on your submission.");
     html_pre_body := false |}.

(** Every run of [m] ends as [R] says and appends only events in [P]. *)
Definition ends {A} (P : event → Prop) (R : result A → Prop) (m : M A)
  : Prop :=
  ∀ s r s', m s = (r, s') →
    R r ∧ ∃ evs, trace s' = trace s ++ evs ∧ Forall P evs.

Definition raised {A} (r : result A) : Prop := ∃ e, r = Err e.





(** The events of a report archived under the lock. *)
Definition archive_events (self : Submission) (repo report_path output : string)
  : list event :=
  let dir := Py.os_path_join repo (get_last_first_username (student self)) in
  [EvGetLock (path (assignment_dir self));
   EvReportsClone (assignment_dir self);
   EvMakedirs dir;
   EvWrite report_path output;
   EvGitAddAll repo;
   EvGitCommit repo
     ("Submission report for " +:+ get_last_first_username (student self));
   EvReportsRelease repo;
   EvReleaseLock (path (assignment_dir self))].




(** * Properties *)

(** ** The monad *)

Section MonadFacts.

Context {A B : Type}.

Lemma bind_Ok (m : M A) (f : A → M B) s a s1 :
  m s = (Ok a, s1) → bind m f s = f a s1.
Proof. unfold bind. by intros ->. Qed.

Lemma bind_Err (m : M A) (f : A → M B) s e s1 :
  m s = (Err e, s1) → bind m f s = (Err e, s1).
Proof. unfold bind. by intros ->. Qed.

Lemma bind_inv (m : M A) (f : A → M B) s r s' :
  bind m f s = (r, s') →
  (∃ a s1, m s = (Ok a, s1) ∧ f a s1 = (r, s'))
  ∨ (∃ e, m s = (Err e, s') ∧ r = Err e)
  ∨ (m s = (Diverges, s') ∧ r = Diverges).
Proof.
  unfold bind. destruct (m s) as [[a|e|] s1]; intros H.
  - left. eauto.
  - right. left. exists e. by simplify_eq.
  - right. right. by simplify_eq.
Qed.

Lemma call_inv (ev : event) (answer : State → outcome A) s r s' :
  call ev answer s = (r, s') →
  s' = log ev s
  ∧ ((∃ a, answer s = Returns a ∧ r = Ok a)
     ∨ (∃ e, answer s = Raises e ∧ r = Err e)).
Proof.
  unfold call. destruct (answer s); intros; simplify_eq; naive_solver.
Qed.

Lemma ask_inv (answer : State → outcome A) s r s' :
  ask answer s = (r, s') →
  s' = s
  ∧ ((∃ a, answer s = Returns a ∧ r = Ok a)
     ∨ (∃ e, answer s = Raises e ∧ r = Err e)).
Proof.
  unfold ask. destruct (answer s); intros; simplify_eq; naive_solver.
Qed.

End MonadFacts.

(** ** What a computation can append to the trace *)

Lemma trace_log ev s : trace (log ev s) = trace s ++ [ev].
Proof. done. Qed.

Lemma trace_add_dir p s : trace (add_dir p s) = trace s.
Proof. done. Qed.

Lemma trace_write_file p c s : trace (write_file p c s) = trace s.
Proof. done. Qed.

Lemma trace_move_file src dst s : trace (move_file src dst s) = trace s.
Proof. unfold move_file. by destruct (files s !! src). Qed.

Lemma trace_remove_tree p s : trace (remove_tree p s) = trace s.
Proof. done. Qed.

Section Emits.

Context (P : event → Prop).

Lemma emits_ret {A} (a : A) : emits P (ret a).
Proof.
  intros s r s' [= <- <-]. exists []. by rewrite app_nil_r.
Qed.

Lemma emits_raise {A} e : emits P (@raise A e).
Proof.
  intros s r s' [= <- <-]. exists []. by rewrite app_nil_r.
Qed.

Lemma emits_diverge {A} : emits P (λ s, (@Diverges A, s)).
Proof.
  intros s r s' [= <- <-]. exists []. by rewrite app_nil_r.
Qed.

Lemma emits_get {A} (f : State → A) : emits P (get f).
Proof.
  intros s r s' [= <- <-]. exists []. by rewrite app_nil_r.
Qed.

Lemma emits_modify f :
  (∀ s, trace (f s) = trace s) → emits P (modify f).
Proof.
  intros Hf s r s' [= <- <-]. exists []. by rewrite Hf, app_nil_r.
Qed.

Lemma emits_ask {A} (answer : State → outcome A) : emits P (ask answer).
Proof.
  intros s r s' H. apply ask_inv in H as [-> _].
  exists []. by rewrite app_nil_r.
Qed.

Lemma emits_emit ev : P ev → emits P (emit ev).
Proof.
  intros Hev s r s' [= <- <-]. exists [ev]. split; [done|]. by constructor.
Qed.

Lemma emits_call {A} ev (answer : State → outcome A) :
  P ev → emits P (call ev answer).
Proof.
  intros Hev s r s' H. apply call_inv in H as [-> _].
  exists [ev]. split; [done|]. by constructor.
Qed.

Lemma emits_bind {A B} (m : M A) (f : A → M B) :
  emits P m → (∀ a, emits P (f a)) → emits P (bind m f).
Proof.
  intros Hm Hf s r s' H.
  apply bind_inv in H as [(a & s1 & H1 & H2)|[(e & H1 & _)|[H1 _]]].
  - apply Hm in H1 as (evs1 & E1 & F1). apply Hf in H2 as (evs2 & E2 & F2).
    exists (evs1 ++ evs2). split.
    + by rewrite E2, E1, app_assoc.
    + by apply Forall_app.
  - by apply Hm in H1.
  - by apply Hm in H1.
Qed.

Lemma emits_try_except {A} (m : M A) (h : string → M A) :
  emits P m → (∀ e, emits P (h e)) → emits P (try_except m h).
Proof.
  intros Hm Hh s r s' H. unfold try_except in H.
  destruct (m s) as [[a|e|] s1] eqn:E.
  - simplify_eq. by apply Hm in E.
  - apply Hm in E as (evs1 & E1 & F1). apply Hh in H as (evs2 & E2 & F2).
    exists (evs1 ++ evs2). split.
    + by rewrite E2, E1, app_assoc.
    + by apply Forall_app.
  - simplify_eq. by apply Hm in E.
Qed.

Lemma emits_finally {A} (m : M A) (fin : M unit) :
  emits P m → emits P fin → emits P (finally m fin).
Proof.
  intros Hm Hfin s r s' H. unfold finally in H.
  destruct (m s) as [r1 s1] eqn:E.
  apply Hm in E as (evs1 & E1 & F1).
  assert (∀ r2 s2, fin s1 = (r2, s2) →
            ∃ evs, trace s2 = trace s ++ evs ∧ Forall P evs) as Hk.
  { intros r2 s2 Hf. apply Hfin in Hf as (evs2 & E2 & F2).
    exists (evs1 ++ evs2). split; [by rewrite E2, E1, app_assoc|].
    by apply Forall_app. }
  destruct r1; [| |simplify_eq; by eauto];
    destruct (fin s1) as [[[]|e2|] s2] eqn:E2; simplify_eq;
    by eapply Hk.
Qed.

Lemma emits_weaken {A} (Q : event → Prop) (m : M A) :
  (∀ ev, Q ev → P ev) → emits Q m → emits P m.
Proof.
  intros HQ Hm s r s' H. apply Hm in H as (evs & E & F).
  exists evs. split; [done|]. eapply Forall_impl; eauto.
Qed.

End Emits.

(** Decompose a goal [emits P m] along the structure of [m]; what is left
    are the goals [P ev] for the events [m] can record. *)
Ltac emits_step :=
  lazymatch goal with
  | |- emits _ (ret _) => apply emits_ret
  | |- emits _ (raise _) => apply emits_raise
  | |- emits _ (λ s, (Diverges, s)) => apply emits_diverge
  | |- emits _ (get _) => apply emits_get
  | |- emits _ (ask _) => apply emits_ask
  | |- emits _ (modify _) =>
      apply emits_modify; first
        [ apply trace_add_dir | apply trace_write_file
        | apply trace_move_file | apply trace_remove_tree ]
  | |- emits _ (emit _) => apply emits_emit
  | |- emits _ (call _ _) => apply emits_call
  | |- emits _ (bind _ _) => apply emits_bind; [ | intros ? ]
  | |- emits _ (try_except _ _) => apply emits_try_except; [ | intros ? ]
  | |- emits _ (finally _ _) => apply emits_finally
  | |- emits _ (match ?x with _ => _ end) => destruct x
  | |- emits _ (let _ := _ in _) => cbv zeta
  end.

Ltac emits_unfold :=
  unfold parse_submission_repo_path, class_is_open, is_disabled, log_debug,
    log_info, email_enqueue, enqueue_submission_scan, mkdtemp, chmod,
    git_clone, git_checkout, with_lock, cp, TestEnv_load, TemporaryDirectory,
    get_action_script_and_interpreter, open_write, mv, sudo_chown,
    run_command, reports_clone, makedirs, git_add_all, git_commit, rm.

Ltac emits_auto := emits_unfold; repeat emits_step.

(** ** Sandbox commands (C9) *)

(** C9. The three sandbox command builders end in the same invocation:
    [bash], the generated [run_action.sh], the execution path of the
    assignment, then the student's username, email address, last name and
    first name, in that order. Script and execution path are named under the
    root where each sandbox sees the temporary directory: the mount point
    [/git-keeper-tester/] for docker (the command binds it to the temporary
    directory with [-v]), the tester's home for firejail (bound with
    [--private=]), and the temporary directory itself for the host, with
    the paths [run_tests] passes. What precedes is the sandbox's own
    prefix, so the last four arguments of the three commands are the same
    list. *)
Theorem C9_sandbox_commands_share_the_invocation
    (w : World) (self : Submission)
    (temp_path assignment container_image : string)
    (extra : option string) :
  let positional :=
    [username (student self); email_address (student self);
     last_name (student self); first_name (student self)] in
  let docker := _make_docker_command self temp_path assignment container_image in
  let host :=
    _make_host_command w self (Py.os_path_join temp_path "run_action.sh")
      (Py.os_path_join temp_path assignment) in
  let firejail := _make_firejail_command w self temp_path assignment extra in
  docker =
    ["docker"; "run"; "-v"; temp_path +:+ ":/git-keeper-tester";
     container_image]
    ++ script_invocation self "/git-keeper-tester/" assignment
  ∧ host =
    ["sudo"; "--user"; tester_user (config w); "--set-home"]
    ++ script_invocation self temp_path assignment
  ∧ firejail =
    (["sudo"; "--user"; tester_user (config w); "--set-home"; "firejail";
      "--noprofile"; "--quiet"; "--private=" +:+ temp_path]
     ++ from_option Py.split [] extra)
    ++ script_invocation self (w_user_home_dir w (tester_user (config w)))
         assignment
  ∧ (∀ root, drop 3 (script_invocation self root assignment) = positional)
  ∧ (∃ pre, docker = pre ++ positional)
  ∧ (∃ pre, host = pre ++ positional)
  ∧ (∃ pre, firejail = pre ++ positional).
Proof.
  cbv zeta.
  assert (firejail_eq :
    _make_firejail_command w self temp_path assignment extra =
    (["sudo"; "--user"; tester_user (config w); "--set-home"; "firejail";
      "--noprofile"; "--quiet"; "--private=" +:+ temp_path]
     ++ from_option Py.split [] extra)
    ++ script_invocation self (w_user_home_dir w (tester_user (config w)))
         assignment).
  { unfold _make_firejail_command, user_home_dir.
    by destruct extra. }
  split_and!; try done.
  - eexists (_ :: _ :: _ :: _ :: _ :: _ :: _ :: [_]). reflexivity.
  - eexists (_ :: _ :: _ :: _ :: _ :: _ :: [_]). reflexivity.
  - rewrite firejail_eq. unfold script_invocation.
    eexists (_ ++ [_; _; _]). exact (assoc_L (++) _ [_; _; _] _).
Qed.

(** ** Inversion of successful runs *)

Lemma bind_Ok_inv {A B} (m : M A) (f : A → M B) s b s' :
  bind m f s = (Ok b, s') →
  ∃ a s1, m s = (Ok a, s1) ∧ f a s1 = (Ok b, s').
Proof.
  intros H. apply bind_inv in H as [H|[(e & _ & ?)|[_ ?]]]; by eauto.
Qed.

Lemma call_Ok_inv {A} ev (answer : State → outcome A) s a s' :
  call ev answer s = (Ok a, s') → answer s = Returns a ∧ s' = log ev s.
Proof.
  intros H. apply call_inv in H as [-> [(a' & ? & ?)|(e & _ & ?)]];
    by simplify_eq.
Qed.

Lemma call_Returns {A} ev (answer : State → outcome A) s a :
  answer s = Returns a → call ev answer s = (Ok a, log ev s).
Proof. unfold call. by intros ->. Qed.

Lemma call_Raises {A} ev (answer : State → outcome A) s e :
  answer s = Raises e → call ev answer s = (Err e, log ev s).
Proof. unfold call. by intros ->. Qed.

(** ** The run script (C7) *)

Lemma format_run_action_template cd seconds megabytes interpreter script_name :
  Py.format run_action_template
    [("cd_command", cd); ("global_timeout", Py.str_N seconds);
     ("global_memory_limit", Py.str_N megabytes);
     ("interpreter", interpreter); ("script_name", script_name)]
  = Some (run_action_sh_text cd seconds megabytes interpreter script_name).
Proof.
  unfold run_action_sh_text.
  generalize (Py.str_N seconds) (Py.str_N megabytes). intros t m.
  vm_compute. reflexivity.
Qed.

Lemma write_run_action_sh_Ok w dest tests run_path s s' :
  write_run_action_sh w dest tests run_path s = (Ok tt, s') →
  ∃ tmp script_name interpreter,
    let text := run_action_sh_text (cd_line run_path)
                  (tests_timeout (config w)) (tests_memory_limit (config w))
                  interpreter script_name in
    let tmp_sh := Py.os_path_join tmp "run_action.sh" in
    w_TemporaryDirectory w s = Returns tmp
    ∧ w_get_action_script_and_interpreter w (log EvTemporaryDirectory s) tests
      = Returns (Some script_name, Some interpreter)
    ∧ s' = move_file tmp_sh dest
             (log (EvMv tmp_sh dest true)
                (write_file tmp_sh text
                   (log (EvWrite tmp_sh text)
                      (log (EvGetActionScript tests)
                         (log EvTemporaryDirectory s))))).
Proof.
  unfold write_run_action_sh, TemporaryDirectory,
    get_action_script_and_interpreter, open_write, mv, modify.
  intros H.
  apply bind_Ok_inv in H as (tmp & s1 & H1 & H).
  apply call_Ok_inv in H1 as [Htmp ->].
  apply bind_Ok_inv in H as ([script interp] & s2 & H2 & H).
  apply call_Ok_inv in H2 as [Hfound ->].
  destruct script as [script_name|]; [|done].
  destruct interp as [interpreter|]; [|done].
  fold (cd_line run_path) in H.
  rewrite format_run_action_template in H.
  apply bind_Ok_inv in H as ([] & s3 & H3 & H).
  apply bind_Ok_inv in H3 as ([] & s4 & H4 & H3).
  apply call_Ok_inv in H4 as [_ ->]. injection H3 as <-.
  apply bind_Ok_inv in H as ([] & s5 & H5 & H).
  apply call_Ok_inv in H5 as [_ ->]. injection H as <-.
  exists tmp, script_name, interpreter. by cbv zeta.
Qed.

(** C7. Whenever [write_run_action_sh] completes, the file it wrote and moved
    to its destination is, character for character, the script
    [#!/bin/bash], the optional [cd <run_path>/tests] (an empty line when no
    run path is given), [GLOBAL_TIMEOUT=<seconds>],
    [GLOBAL_MEM_LIMIT_MB=<megabytes>], the conversion to kilobytes by
    [* 1024], [ulimit -v] of that value, the [INT] trap that signals the
    process group of the background job, [timeout $GLOBAL_TIMEOUT
    <interpreter> <script> "$@" &], [pid=$!] and [wait $pid]; interpreter and
    script are the pair resolved from the test assets, and the limits are the
    configured ones. *)
Theorem C7_run_script_is_bit_exact
    (w : World) (dest tests : string) (run_path : option string)
    (s s' : State) :
  write_run_action_sh w dest tests run_path s = (Ok tt, s') →
  ∃ tmp script_name interpreter,
    let cd := match run_path with
              | None => EmptyString
              | Some run_path => "cd " +:+ run_path +:+ "/tests"
              end in
    let text :=
      "#!/bin/bash" +:+ Py.nl +:+
      cd +:+ Py.nl +:+
      "GLOBAL_TIMEOUT=" +:+ Py.str_N (tests_timeout (config w)) +:+ Py.nl +:+
      "GLOBAL_MEM_LIMIT_MB=" +:+ Py.str_N (tests_memory_limit (config w))
        +:+ Py.nl +:+
      "GLOBAL_MEM_LIMIT_KB=$(($GLOBAL_MEM_LIMIT_MB * 1024))" +:+ Py.nl +:+
      "ulimit -v $GLOBAL_MEM_LIMIT_KB" +:+ Py.nl +:+
      "trap 'kill -INT -$pid' INT" +:+ Py.nl +:+
      "timeout $GLOBAL_TIMEOUT " +:+ interpreter +:+ " " +:+ script_name
        +:+ " " +:+ Py.dquote +:+ "$@" +:+ Py.dquote +:+ " &" +:+ Py.nl +:+
      "pid=$!" +:+ Py.nl +:+
      "wait $pid" +:+ Py.nl in
    let tmp_sh := Py.os_path_join tmp "run_action.sh" in
    w_get_action_script_and_interpreter w (log EvTemporaryDirectory s) tests
      = Returns (Some script_name, Some interpreter)
    ∧ trace s' =
        trace s ++ [EvTemporaryDirectory; EvGetActionScript tests;
                    EvWrite tmp_sh text; EvMv tmp_sh dest true]
    ∧ files s' !! mv_target tmp_sh dest s = Some text
    ∧ (mv_target tmp_sh dest s ≠ tmp_sh → files s' !! tmp_sh = None).
Proof.
  intros H.
  apply write_run_action_sh_Ok in H as (tmp & script_name & interpreter & H).
  cbv zeta in H. destruct H as (_ & Hfound & ->).
  exists tmp, script_name, interpreter. cbv zeta.
  fold (cd_line run_path).
  change (_ +:+ _) with
    (run_action_sh_text (cd_line run_path) (tests_timeout (config w))
       (tests_memory_limit (config w)) interpreter script_name).
  set (text := run_action_sh_text _ _ _ _ _).
  set (tmp_sh := Py.os_path_join tmp "run_action.sh").
  split; [done|].
  unfold move_file. simpl. rewrite lookup_insert_eq. simpl.
  split_and!.
  - by rewrite <-!app_assoc.
  - apply lookup_insert_eq.
  - intros Hne. rewrite lookup_insert_ne by done. apply lookup_delete_eq.
Qed.

(** ** Strings and paths *)

Lemma string_app_cons c s t : String c s +:+ t = String c (s +:+ t).
Proof. done. Qed.

Lemma string_app_assoc s1 s2 s3 : (s1 +:+ s2) +:+ s3 = s1 +:+ s2 +:+ s3.
Proof.
  induction s1 as [|c s1 IH]; [done|].
  by rewrite !string_app_cons, IH.
Qed.

Lemma string_length_app s t :
  String.length (s +:+ t) = String.length s + String.length t.
Proof.
  induction s as [|c s IH]; [done|].
  rewrite string_app_cons. simpl. by rewrite IH.
Qed.

Lemma string_app_inj_r t s1 s2 : s1 +:+ t = s2 +:+ t → s1 = s2.
Proof.
  revert s2. induction s1 as [|c1 s1 IH]; intros [|c2 s2] H; [done| | |].
  - apply (f_equal String.length) in H.
    rewrite !string_length_app in H. simpl in H. lia.
  - apply (f_equal String.length) in H.
    rewrite !string_length_app in H. simpl in H. lia.
  - rewrite !string_app_cons in H. injection H as -> H.
    f_equal. by apply IH.
Qed.

Lemma os_path_join_relative a b :
  Py.startswith_sep b = false → Py.os_path_join a b = a +:+ joint a +:+ b.
Proof.
  unfold Py.os_path_join, joint. intros ->.
  by destruct (Py.is_empty a || Py.endswith_sep a).
Qed.

Lemma report_filename_relative ts counter :
  Py.startswith_sep (report_filename ts counter) = false.
Proof. by destruct counter. Qed.

Lemma os_path_join_longer a b :
  Py.startswith_sep b = false → b ≠ EmptyString → Py.os_path_join a b ≠ a.
Proof.
  intros Hb Hne H. rewrite os_path_join_relative in H by done.
  apply (f_equal String.length) in H. rewrite !string_length_app in H.
  destruct b; [done|]. simpl in H. lia.
Qed.

(** ** The report name loop (C6) *)

Section ReportNames.

Context (dir ts : string).

Lemma numbered_path_inj : Inj (=) (=) (numbered_path dir ts).
Proof.
  intros k1 k2 H. unfold numbered_path in H.
  rewrite !os_path_join_relative in H by apply report_filename_relative.
  unfold report_filename in H.
  do 5 apply (inj (String.app _)) in H.
  apply string_app_inj_r in H. by apply (inj pretty) in H.
Qed.

Lemma base_path_not_numbered k : base_path dir ts ≠ numbered_path dir ts k.
Proof.
  unfold base_path, numbered_path. intros H.
  rewrite !os_path_join_relative in H by apply report_filename_relative.
  unfold report_filename in H.
  do 4 apply (inj (String.app _)) in H. done.
Qed.

Lemma os_path_exists_spec p s :
  os_path_exists p s = true ↔ p ∈ dirs s ∪ dom (files s).
Proof.
  unfold os_path_exists.
  rewrite orb_true_iff, !bool_decide_eq_true. set_solver.
Qed.

(** Pigeonhole: a run of consecutive numbered names that all exist is no
    longer than the number of existing paths. *)
Lemma numbered_paths_bounded (E : gset string) (c : N) (n : nat) :
  (∀ i, i < n → numbered_path dir ts (c + N.of_nat i) ∈ E) → n ≤ size E.
Proof.
  intros Hin.
  set (l := (λ i, numbered_path dir ts (c + N.of_nat i)) <$> seq 0 n).
  assert (NoDup l) as Hnd.
  { apply NoDup_fmap_2; [|apply NoDup_seq].
    intros i j Hij. apply numbered_path_inj in Hij. lia. }
  assert (list_to_set l ⊆ E) as Hsub.
  { intros p Hp. apply elem_of_list_to_set in Hp.
    apply list_elem_of_fmap in Hp as (i & -> & Hi).
    apply elem_of_seq in Hi. apply Hin. lia. }
  apply subseteq_size in Hsub.
  rewrite size_list_to_set in Hsub by done.
  unfold l in Hsub. by rewrite length_fmap, length_seq in Hsub.
Qed.

Lemma fresh_report_path_S fuel s p c :
  fresh_report_path (S fuel) s dir ts p c =
  if os_path_exists p s
  then fresh_report_path fuel s dir ts (numbered_path dir ts c) (c + 1)%N
  else Some p.
Proof. done. Qed.

(** The loop stops at the first name of [p], [numbered c], [numbered
    (c+1)], ... that does not exist. *)
Lemma fresh_report_path_Some fuel s p c q :
  fresh_report_path fuel s dir ts p c = Some q →
  os_path_exists q s = false
  ∧ (q = p
     ∨ ∃ i : nat, q = numbered_path dir ts (c + N.of_nat i)
         ∧ os_path_exists p s = true
         ∧ ∀ j, j < i →
             os_path_exists (numbered_path dir ts (c + N.of_nat j)) s = true).
Proof.
  revert p c. induction fuel as [|fuel IH]; intros p c H; [done|].
  rewrite fresh_report_path_S in H. destruct (os_path_exists p s) eqn:Ep.
  - apply IH in H as [Hq [->|(i & -> & Hn & Hlt)]].
    + split; [done|]. right. exists 0. rewrite N.add_0_r.
      split_and!; [done..|]. intros j Hj. lia.
    + split; [done|]. right. exists (S i). split_and!; [|done|].
      * f_equal. lia.
      * intros [|j] Hj.
        -- by rewrite N.add_0_r.
        -- replace (c + N.of_nat (S j))%N with (c + 1 + N.of_nat j)%N by lia.
           apply Hlt. lia.
  - injection H as <-. split; [done|]. by left.
Qed.

Lemma fresh_report_path_None n s p c :
  fresh_report_path (S n) s dir ts p c = None →
  ∀ i, i < n → numbered_path dir ts (c + N.of_nat i) ∈ dirs s ∪ dom (files s).
Proof.
  revert p c. induction n as [|n IH]; intros p c H i Hi; [lia|].
  rewrite fresh_report_path_S in H. destruct (os_path_exists p s); [|done].
  pose proof H as H'. rewrite fresh_report_path_S in H'.
  destruct (os_path_exists (numbered_path dir ts c) s) eqn:Ec; [|done].
  destruct i as [|i].
  - rewrite N.add_0_r. by apply os_path_exists_spec.
  - replace (c + N.of_nat (S i))%N with (c + 1 + N.of_nat i)%N by lia.
    apply (IH (numbered_path dir ts c) (c + 1)%N); [done|lia].
Qed.

(** The loop ends: the fuel [_add_report] gives it is never used up. *)
Lemma fresh_report_path_total s p c :
  ∃ q, fresh_report_path (enough_fuel s) s dir ts p c = Some q.
Proof.
  destruct (fresh_report_path (enough_fuel s) s dir ts p c) as [q|] eqn:E;
    [by eauto|].
  unfold enough_fuel in E.
  pose proof (fresh_report_path_None _ _ _ _ E) as Hall.
  apply numbered_paths_bounded in Hall. lia.
Qed.

End ReportNames.

(** ** The Report Recorder (C6) *)

(** Case analysis on every answer a run depends on. *)
Ltac run_cases H :=
  repeat match type of H with
         | context [match ?x with _ => _ end] =>
             lazymatch x with
             | context [match _ with _ => _ end] => fail
             | _ => destruct x eqn:?
             end
         end.

(** Every way [_add_report] can end: it does not diverge, and either no file
    changed and it raised, or exactly the fresh name found by the loop was
    written, in the state [checked] left by the clone and [makedirs]. *)
Lemma _add_report_inv w self body s r s' :
  _add_report w self body s = (r, s') →
  r ≠ Diverges
  ∧ dirs s ⊆ dirs s'
  ∧ ((files s' = files s ∧ r ≠ Ok tt)
     ∨ ∃ repo p,
         let dir :=
           Py.os_path_join repo (get_last_first_username (student self)) in
         let checked :=
           add_dir dir
             (log (EvMakedirs dir)
                (log (EvReportsClone (assignment_dir self)) s)) in
         let ts := strftime_report (w_localtime w checked) in
         w_reports_clone w s (assignment_dir self) = Returns repo
         ∧ fresh_report_path (enough_fuel checked) checked dir ts
             (base_path dir ts) 1 = Some p
         ∧ files s' = <[p := body]> (files s)
         ∧ dirs s' = {[dir]} ∪ dirs s).
Proof.
  unfold _add_report, reports_clone, makedirs, open_write, git_add_all,
    git_commit, bind, call, finally, get, modify, ret.
  intros H. run_cases H. all: simplify_eq.
  all: try (split_and!; [done|simpl; set_solver|by left]).
  all: try match goal with
           | H : fresh_report_path (enough_fuel ?s) ?s ?d ?t ?p ?c = None
             |- _ =>
               destruct (fresh_report_path_total d t s p c) as [q Hq];
               congruence
           end.
  all: split_and!; [done|simpl; set_solver|right; by eexists _, _].
Qed.

Lemma os_path_exists_add_dir p d s :
  os_path_exists p (add_dir d s)
  = bool_decide (p = d) || os_path_exists p s.
Proof.
  unfold os_path_exists. simpl.
  rewrite (bool_decide_ext (p ∈ {[d]} ∪ dirs s) (p = d ∨ p ∈ dirs s))
    by (by rewrite elem_of_union, elem_of_singleton).
  by rewrite bool_decide_or, orb_assoc.
Qed.

Lemma os_path_exists_log p ev s :
  os_path_exists p (log ev s) = os_path_exists p s.
Proof. done. Qed.

Lemma os_path_exists_false p s :
  os_path_exists p s = false ↔ (p ∉ dirs s) ∧ (files s !! p = None).
Proof.
  unfold os_path_exists.
  rewrite orb_false_iff, !bool_decide_eq_false, not_elem_of_dom. done.
Qed.

Lemma report_path_not_dir dir ts counter :
  Py.os_path_join dir (report_filename ts counter) ≠ dir.
Proof.
  apply os_path_join_longer; [apply report_filename_relative|].
  by destruct counter.
Qed.

(** C6. A report is named [report-<timestamp>.txt], the timestamp being
    year, month, day, hour, minute, second and time zone of the local time;
    when that name exists the names [report-<timestamp>-1.txt],
    [report-<timestamp>-2.txt], ... are tried in increasing order and the
    first one that does not exist is written. The search always ends, the
    written name did not exist, and every file that existed keeps its
    contents. Two completions for one student at one timestamp, in a
    directory that holds neither name, leave [report-<ts>.txt] with the first
    body and [report-<ts>-1.txt] with the second. *)
Theorem C6_report_names_never_collide (w : World) (self : Submission) :
  (∀ t, strftime_report t =
        Py.str_N (tm_year t) +:+ "-" +:+ Py.two_digits (tm_mon t) +:+ "-" +:+
        Py.two_digits (tm_mday t) +:+ "_" +:+ Py.two_digits (tm_hour t)
        +:+ "-" +:+ Py.two_digits (tm_min t) +:+ "-" +:+
        Py.two_digits (tm_sec t) +:+ "-" +:+ tm_zone t)
  ∧ (∀ dir ts k,
       base_path dir ts = Py.os_path_join dir ("report-" +:+ ts +:+ ".txt")
       ∧ numbered_path dir ts k =
           Py.os_path_join dir
             ("report-" +:+ ts +:+ "-" +:+ Py.str_N k +:+ ".txt")
       ∧ base_path dir ts ≠ numbered_path dir ts k
       ∧ Inj (=) (=) (numbered_path dir ts))
  ∧ (∀ report_body s r s',
       _add_report w self report_body s = (r, s') →
       r ≠ Diverges
       ∧ (∀ q c, files s !! q = Some c → files s' !! q = Some c)
       ∧ (r = Ok tt →
          ∃ repo k,
            let dir :=
              Py.os_path_join repo (get_last_first_username (student self)) in
            let checked :=
              add_dir dir
                (log (EvMakedirs dir)
                   (log (EvReportsClone (assignment_dir self)) s)) in
            let ts := strftime_report (w_localtime w checked) in
            let name (i : N) :=
              if bool_decide (i = 0%N) then base_path dir ts
              else numbered_path dir ts i in
            w_reports_clone w s (assignment_dir self) = Returns repo
            ∧ os_path_exists (name k) checked = false
            ∧ (∀ j, (j < k)%N → os_path_exists (name j) checked = true)
            ∧ files s' = <[name k := report_body]> (files s)))
  ∧ (∀ repo ts body1 body2 s0 s1 s2,
       let dir :=
         Py.os_path_join repo (get_last_first_username (student self)) in
       (∀ s, w_reports_clone w s (assignment_dir self) = Returns repo) →
       (∀ s, strftime_report (w_localtime w s) = ts) →
       os_path_exists (base_path dir ts) s0 = false →
       os_path_exists (numbered_path dir ts 1) s0 = false →
       _add_report w self body1 s0 = (Ok tt, s1) →
       _add_report w self body2 s1 = (Ok tt, s2) →
       files s1 = <[base_path dir ts := body1]> (files s0)
       ∧ files s2 !! base_path dir ts = Some body1
       ∧ files s2 !! numbered_path dir ts 1 = Some body2).
Proof.
  split_and!.
  - done.
  - intros dir ts k. split_and!; [done|done| |].
    + apply base_path_not_numbered.
    + apply numbered_path_inj.
  - intros report_body s r s' H.
    apply _add_report_inv in H
      as (Hdiv & _ & [[Hfiles Hr]|(repo & p & H)]).
    { split_and!; [done| |done]. intros q c. by rewrite Hfiles. }
    cbv zeta in H. destruct H as (Hrepo & Hfresh & Hfiles & _).
    apply fresh_report_path_Some in Hfresh as [Hp Hshape].
    split_and!; [done| |].
    + intros q c Hq. rewrite Hfiles.
      rewrite lookup_insert_ne; [done|]. intros <-.
      apply os_path_exists_false in Hp as [_ Hp]. simpl in Hp. congruence.
    + intros _. exists repo. cbv zeta.
      destruct Hshape as [->|(i & -> & Hbase & Hlt)].
      * exists 0%N. split_and!; [done|done| |done]. intros j Hj. lia.
      * exists (1 + N.of_nat i)%N.
        rewrite bool_decide_eq_false_2 by lia.
        split_and!; [done|done| |done].
        intros j Hj. case_bool_decide as Hj0; [done|].
        replace j with (1 + N.of_nat (N.to_nat (j - 1)))%N by lia.
        apply Hlt. lia.
  - intros repo ts body1 body2 s0 s1 s2 dir Hrepo Hts Hbase Hone H1 H2.
    apply os_path_exists_false in Hbase as [Hbase_d Hbase_f].
    apply os_path_exists_false in Hone as [Hone_d Hone_f].
    apply _add_report_inv in H1 as (_ & _ & [[_ ?]|(repo1 & p1 & H1)]);
      [done|].
    cbv zeta in H1. destruct H1 as (Hrepo1 & Hfresh1 & Hfiles1 & Hdirs1).
    rewrite Hrepo in Hrepo1. injection Hrepo1 as <-.
    rewrite Hts in Hfresh1. fold dir in Hfresh1, Hfiles1, Hdirs1.
    unfold enough_fuel in Hfresh1. rewrite fresh_report_path_S in Hfresh1.
    rewrite os_path_exists_add_dir, !os_path_exists_log in Hfresh1.
    rewrite bool_decide_eq_false_2 in Hfresh1
      by apply report_path_not_dir.
    rewrite (proj2 (os_path_exists_false _ _)) in Hfresh1 by done.
    injection Hfresh1 as <-.
    apply _add_report_inv in H2 as (_ & _ & [[_ ?]|(repo2 & p2 & H2)]);
      [done|].
    cbv zeta in H2. destruct H2 as (Hrepo2 & Hfresh2 & Hfiles2 & _).
    rewrite Hrepo in Hrepo2. injection Hrepo2 as <-.
    rewrite Hts in Hfresh2. fold dir in Hfresh2, Hfiles2.
    unfold enough_fuel in Hfresh2. rewrite !fresh_report_path_S in Hfresh2.
    rewrite !os_path_exists_add_dir, !os_path_exists_log in Hfresh2.
    rewrite (bool_decide_eq_false_2 (base_path dir ts = dir)) in Hfresh2
      by apply report_path_not_dir.
    assert (os_path_exists (base_path dir ts) s1 = true) as Eb.
    { apply os_path_exists_spec. rewrite Hfiles1, dom_insert_L.
      by apply elem_of_union_r, elem_of_union_l, elem_of_singleton. }
    rewrite Eb in Hfresh2. simpl in Hfresh2.
    rewrite (bool_decide_eq_false_2 (numbered_path dir ts 1 = dir)) in Hfresh2
      by apply report_path_not_dir.
    assert (os_path_exists (numbered_path dir ts 1) s1 = false) as En.
    { apply os_path_exists_false. rewrite Hdirs1, Hfiles1. split.
      - rewrite elem_of_union, elem_of_singleton. intros [Hd|Hd]; [|done].
        by apply (report_path_not_dir dir ts (Some 1%N)).
      - rewrite lookup_insert_ne; [done|]. apply base_path_not_numbered. }
    rewrite En in Hfresh2. simpl in Hfresh2. injection Hfresh2 as <-.
    split_and!; [done| |].
    + rewrite Hfiles2, Hfiles1.
      rewrite lookup_insert_ne by (apply not_eq_sym, base_path_not_numbered).
      apply lookup_insert_eq.
    + rewrite Hfiles2. apply lookup_insert_eq.
Qed.

(** ** Termination *)

Section Terminates.

Lemma terminates_ret {A} (a : A) : terminates (ret a).
Proof. by intros s. Qed.

Lemma terminates_raise {A} e : terminates (@raise A e).
Proof. by intros s. Qed.

Lemma terminates_get {A} (f : State → A) : terminates (get f).
Proof. by intros s. Qed.

Lemma terminates_modify f : terminates (modify f).
Proof. by intros s. Qed.

Lemma terminates_emit ev : terminates (emit ev).
Proof. by intros s. Qed.

Lemma terminates_ask {A} (answer : State → outcome A) :
  terminates (ask answer).
Proof. intros s. unfold ask. by destruct (answer s). Qed.

Lemma terminates_call {A} ev (answer : State → outcome A) :
  terminates (call ev answer).
Proof. intros s. unfold call. by destruct (answer s). Qed.

Lemma terminates_bind {A B} (m : M A) (f : A → M B) :
  terminates m → (∀ a, terminates (f a)) → terminates (bind m f).
Proof.
  intros Hm Hf s. unfold bind. specialize (Hm s).
  destruct (m s) as [[a|e|] s1]; [apply Hf|done..].
Qed.

Lemma terminates_try_except {A} (m : M A) (h : string → M A) :
  terminates m → (∀ e, terminates (h e)) → terminates (try_except m h).
Proof.
  intros Hm Hh s. unfold try_except. specialize (Hm s).
  destruct (m s) as [[a|e|] s1]; [done|apply Hh|done].
Qed.

Lemma terminates_finally {A} (m : M A) (fin : M unit) :
  terminates m → terminates fin → terminates (finally m fin).
Proof.
  intros Hm Hfin s. unfold finally. specialize (Hm s).
  destruct (m s) as [[a|e|] s1]; [| |done];
    specialize (Hfin s1); by destruct (fin s1) as [[[]|e2|] s2].
Qed.

Lemma _add_report_terminates w self report_body :
  terminates (_add_report w self report_body).
Proof.
  intros s. destruct (_add_report w self report_body s) as [r s'] eqn:E.
  by apply _add_report_inv in E as [? _].
Qed.

End Terminates.

Ltac terminates_step :=
  lazymatch goal with
  | |- terminates (ret _) => apply terminates_ret
  | |- terminates (raise _) => apply terminates_raise
  | |- terminates (get _) => apply terminates_get
  | |- terminates (modify _) => apply terminates_modify
  | |- terminates (emit _) => apply terminates_emit
  | |- terminates (ask _) => apply terminates_ask
  | |- terminates (call _ _) => apply terminates_call
  | |- terminates (_add_report _ _ _) => apply _add_report_terminates
  | |- terminates (bind _ _) => apply terminates_bind; [ | intros ? ]
  | |- terminates (try_except _ _) =>
      apply terminates_try_except; [ | intros ? ]
  | |- terminates (finally _ _) => apply terminates_finally
  | |- terminates (match ?x with _ => _ end) => destruct x
  | |- terminates (let _ := _ in _) => cbv zeta
  end.

Ltac terminates_auto := emits_unfold; repeat terminates_step.

Lemma write_run_action_sh_terminates w dest tests run_path :
  terminates (write_run_action_sh w dest tests run_path).
Proof. unfold write_run_action_sh. terminates_auto. Qed.

Lemma report_failure_terminates assignment student faculty_address message :
  terminates (report_failure assignment student faculty_address message).
Proof. unfold report_failure. terminates_auto. Qed.

Lemma run_tests_prepare_terminates w self assignment :
  terminates (run_tests_prepare w self assignment).
Proof.
  unfold run_tests_prepare. terminates_auto;
    apply write_run_action_sh_terminates.
Qed.

Lemma run_tests_execute_terminates w self f c a tp sh ap :
  terminates (run_tests_execute w self f c a tp sh ap).
Proof. unfold run_tests_execute, run_tests_make_cmd. terminates_auto. Qed.

Lemma run_tests_cleanup_terminates w self tp :
  terminates (run_tests_cleanup w self tp).
Proof. unfold run_tests_cleanup. terminates_auto. Qed.

Lemma run_tests_guarded_terminates w self f c a tp sh ap :
  terminates (run_tests_guarded w self f c a tp sh ap).
Proof.
  unfold run_tests_guarded.
  apply terminates_bind; [|intros _; apply run_tests_cleanup_terminates].
  apply terminates_try_except; [apply run_tests_execute_terminates|].
  intros e. apply report_failure_terminates.
Qed.

(** [run_tests] always ends: it returns or raises. *)
Lemma run_tests_terminates w self : terminates (run_tests w self).
Proof.
  unfold run_tests, _send_closed_email, _send_disabled_email.
  terminates_auto;
    first [ apply run_tests_prepare_terminates
          | apply run_tests_guarded_terminates ].
Qed.

(** ** Counting events *)

Lemma count_app f l1 l2 : count f (l1 ++ l2) = count f l1 + count f l2.
Proof. unfold count. by rewrite filter_app, length_app. Qed.

Lemma count_none f l : Forall (λ ev, f ev = false) l → count f l = 0.
Proof.
  unfold count. induction 1 as [|ev l Hev _ IH]; [done|].
  rewrite filter_cons_False by congruence. done.
Qed.

Lemma quiet_no_spawn l : Forall quiet l → Forall (λ ev, is_spawn ev = false) l.
Proof. intros H. eapply Forall_impl; [done|]. by intros ev (? & _). Qed.

Lemma quiet_no_failure l :
  Forall quiet l → Forall (λ ev, is_report_failure ev = false) l.
Proof. intros H. eapply Forall_impl; [done|]. by intros ev (_ & ? & _). Qed.

Lemma quiet_no_report l : Forall quiet l → Forall no_report l.
Proof.
  intros H. eapply Forall_impl; [done|].
  by intros ev (_ & _ & ? & ? & _ & ?).
Qed.

(** From a [Forall] in the context to a weaker one. *)
Ltac forall_from :=
  eapply Forall_impl; [done|]; simpl; intros ?; unfold quiet, no_report;
  tauto.

(** ** The phases of [run_tests] *)

Ltac quiet_event :=
  unfold quiet, no_report; simpl; split_and!; first [done | by eexists].

Lemma write_run_action_sh_quiet w dest tests run_path :
  emits quiet (write_run_action_sh w dest tests run_path).
Proof. unfold write_run_action_sh. emits_auto; quiet_event. Qed.

Lemma run_tests_prepare_quiet w self assignment :
  emits quiet (run_tests_prepare w self assignment).
Proof.
  unfold run_tests_prepare. emits_auto;
    first [ apply write_run_action_sh_quiet | quiet_event ].
Qed.

Lemma run_tests_cleanup_quiet w self tp :
  emits quiet (run_tests_cleanup w self tp).
Proof. unfold run_tests_cleanup. emits_auto; quiet_event. Qed.

Lemma run_tests_execute_no_failure w self f c a tp sh ap :
  emits (λ ev, is_report_failure ev = false)
    (run_tests_execute w self f c a tp sh ap).
Proof.
  unfold run_tests_execute, run_tests_make_cmd, _add_report.
  emits_auto; done.
Qed.

(** When the submitter is the faculty owner the [try] body records
    nothing of the Report Recorder, no scan notification and no write. *)
Lemma run_tests_execute_owner w self f c a tp sh ap :
  username (student self) = f →
  emits no_report (run_tests_execute w self f c a tp sh ap).
Proof.
  intros Hf. unfold run_tests_execute, run_tests_make_cmd.
  rewrite bool_decide_eq_false_2 by (by intros ?).
  emits_auto; quiet_event.
Qed.

Lemma report_failure_run assignment student faculty_address message s :
  ∃ s', report_failure assignment student faculty_address message s
        = (Ok tt, s')
    ∧ trace s' =
        trace s ++ failure_events assignment student faculty_address message
    ∧ dirs s' = dirs s ∧ files s' = files s.
Proof.
  unfold report_failure, email_enqueue, bind, emit. simpl.
  eexists. split; [reflexivity|]. simpl. split_and!; [|done..].
  by rewrite <-!app_assoc.
Qed.

Lemma elem_of_remove_tree p s : p ∉ dirs (remove_tree p s).
Proof. simpl. rewrite elem_of_filter. by intros [[? _] _]. Qed.

(** The cleanup either returns with the directory gone, or the removal
    itself raised. *)
Lemma run_tests_cleanup_run w self tp s r s' :
  run_tests_cleanup w self tp s = (r, s') →
  (r = Ok tt ∧ tp ∉ dirs s')
  ∨ (∃ e, r = Err e ∧ w_rm w s tp true true = Raises e ∧ tp ∈ dirs s).
Proof.
  unfold run_tests_cleanup, rm, log_debug, bind, get, call, modify, emit, ret.
  unfold os_path_isdir. case_bool_decide as Hd.
  - destruct (w_rm w s tp true true) as [[]|e] eqn:E; intros; simplify_eq.
    + left. split; [done|]. apply elem_of_remove_tree.
    + right. by exists e.
  - intros; simplify_eq. by left.
Qed.

(** The [try] and its handler: the body returns, or it raises and
    [report_failure] runs on the state it left; then the cleanup runs. *)
Lemma run_tests_guarded_run w self f c a tp sh ap s1 :
  ∃ s2 s3,
    ((run_tests_execute w self f c a tp sh ap s1 = (Ok tt, s2) ∧ s3 = s2)
     ∨ (∃ e, run_tests_execute w self f c a tp sh ap s1 = (Err e, s2)
          ∧ trace s3 =
              trace s2 ++ failure_events a (student self) (faculty_email self) e
          ∧ dirs s3 = dirs s2 ∧ files s3 = files s2))
    ∧ run_tests_guarded w self f c a tp sh ap s1
      = run_tests_cleanup w self tp s3.
Proof.
  pose proof (run_tests_execute_terminates w self f c a tp sh ap s1) as Ht.
  unfold run_tests_guarded, bind at 1, try_except.
  destruct (run_tests_execute w self f c a tp sh ap s1) as [[[]|e|] s2];
    [| |done].
  - exists s2, s2. split; [by left|done].
  - destruct (report_failure_run a (student self) (faculty_email self) e s2)
      as (s3 & -> & Htr & Hd & Hf).
    exists s2, s3. split; [|done]. right. by exists e.
Qed.

Lemma run_tests_from_try w self s0 f c a tp sh ap s1 :
  reaches_try w self s0 f c a tp sh ap s1 →
  run_tests w self s0 = run_tests_guarded w self f c a tp sh ap s1
  ∧ ∃ evs, trace s1 = trace s0 ++ evs ∧ Forall quiet evs.
Proof.
  intros (Hparse & Hopen & Hdis & Hprep). split.
  - unfold run_tests, parse_submission_repo_path, class_is_open, is_disabled,
      log_debug, bind, ask, emit.
    rewrite Hparse, Hopen. simpl. rewrite Hdis, Hprep. done.
  - apply run_tests_prepare_quiet in Hprep as (evs & E & F).
    exists (EvLog "debug" ("Running tests on " +:+ student_repo_path self)
            :: evs).
    split.
    + rewrite E. simpl. by rewrite <-app_assoc.
    + constructor; [quiet_event|done].
Qed.

(** ** The precondition check (C8) *)

(** C8. A submission to a closed class makes [run_tests] enqueue exactly one
    email, the "class is closed" one to the student, log the fact and return
    at once: nothing else happens, so there is no clone, no checkout, no
    test process and no report file. A submission to a disabled assignment
    of an open class likewise enqueues exactly the "assignment is disabled"
    email, and nothing is written. *)
Theorem C8_closed_class_and_disabled_assignment
    (w : World) (self : Submission) (s0 : State)
    (faculty class assignment : string) :
  w_parse_submission_repo_path w s0 (student_repo_path self)
    = Returns (faculty, class, assignment) →
  (w_class_is_open w s0 class faculty = Returns false →
   ∃ s', run_tests w self s0 = (Ok tt, s')
     ∧ trace s' =
         trace s0 ++
         [EvEmail (closed_email self class);
          EvLog "info"
            (username (student self) +:+ " pushed to " +:+ assignment
             +:+ " in " +:+ class +:+ ", which is closed")]
     ∧ dirs s' = dirs s0 ∧ files s' = files s0)
  ∧ (w_class_is_open w s0 class faculty = Returns true →
     w_is_disabled w s0 class assignment faculty = Returns true →
     ∃ s', run_tests w self s0 = (Ok tt, s')
       ∧ trace s' =
           trace s0 ++
           [EvEmail (disabled_email self class assignment);
            EvLog "info"
              (username (student self) +:+ " pushed to " +:+ assignment
               +:+ " in " +:+ class +:+ ", which is disabled")]
       ∧ dirs s' = dirs s0 ∧ files s' = files s0).
Proof.
  intros Hparse. split.
  - intros Hopen.
    unfold run_tests, parse_submission_repo_path, class_is_open, bind, ask.
    rewrite Hparse, Hopen. simpl.
    eexists. split; [reflexivity|]. simpl.
    split_and!; [|done..]. by rewrite <-app_assoc.
  - intros Hopen Hdis.
    unfold run_tests, parse_submission_repo_path, class_is_open, is_disabled,
      bind, ask.
    rewrite Hparse, Hopen. simpl. rewrite Hdis.
    eexists. split; [reflexivity|]. simpl.
    split_and!; [|done..]. by rewrite <-app_assoc.
Qed.

Lemma C8_witness :
  let closed := Scenario.with_repo ("prof", "cs0", "hw1") (Scenario.fine HOST) in
  let disabled :=
    Scenario.with_repo ("prof", "cs1", "hw0") (Scenario.fine HOST) in
  let self := Scenario.submission Scenario.alice in
  (∃ s', run_tests (Scenario.world closed) self Scenario.start = (Ok tt, s')
     ∧ count is_email (trace s') = 1
     ∧ count is_clone_checkout_or_test (trace s') = 0)
  ∧ (∃ s', run_tests (Scenario.world disabled) self Scenario.start = (Ok tt, s')
     ∧ count is_email (trace s') = 1
     ∧ files s' = ∅).
Proof.
  cbv zeta. split.
  - destruct (C8_closed_class_and_disabled_assignment
                (Scenario.world
                   (Scenario.with_repo ("prof", "cs0", "hw1")
                      (Scenario.fine HOST)))
                (Scenario.submission Scenario.alice) Scenario.start
                "prof" "cs0" "hw1" eq_refl) as [Hclosed _].
    destruct (Hclosed eq_refl) as (s' & Hrun & Htrace & _ & _).
    exists s'. rewrite Htrace. split; [exact Hrun|]. by split.
  - destruct (C8_closed_class_and_disabled_assignment
                (Scenario.world
                   (Scenario.with_repo ("prof", "cs1", "hw0")
                      (Scenario.fine HOST)))
                (Scenario.submission Scenario.alice) Scenario.start
                "prof" "cs1" "hw0" eq_refl) as [_ Hdisabled].
    destruct (Hdisabled eq_refl eq_refl) as (s' & Hrun & Htrace & _ & Hfiles).
    exists s'. rewrite Htrace, Hfiles. split; [exact Hrun|]. by split.
Defined.

(** ** The failure boundary (C1, C2, C4) *)

(** Past the [try], a run ends as its cleanup ends; the trace is that of the
    preparation, of the [try] body, of [report_failure] when the body
    raised, and of the cleanup. *)
Lemma run_tests_after_try w self s0 f c a tp sh ap s1 :
  reaches_try w self s0 f c a tp sh ap s1 →
  ∃ r s' s2 prepare body handler cleanup,
    run_tests w self s0 = (r, s')
    ∧ r ≠ Diverges
    ∧ trace s1 = trace s0 ++ prepare
    ∧ trace s2 = trace s1 ++ body
    ∧ trace s' = trace s0 ++ prepare ++ body ++ handler ++ cleanup
    ∧ Forall quiet prepare
    ∧ Forall (λ ev, is_report_failure ev = false) body
    ∧ Forall quiet cleanup
    ∧ ((run_tests_execute w self f c a tp sh ap s1 = (Ok tt, s2)
        ∧ handler = [])
       ∨ (∃ e, run_tests_execute w self f c a tp sh ap s1 = (Err e, s2)
            ∧ handler =
                failure_events a (student self) (faculty_email self) e))
    ∧ ((r = Ok tt ∧ tp ∉ dirs s')
       ∨ (∃ e s3, r = Err e ∧ w_rm w s3 tp true true = Raises e)).
Proof.
  intros Hreach.
  destruct (run_tests_from_try _ _ _ _ _ _ _ _ _ _ Hreach)
    as (Hrun & prepare & Hprep & Fprep).
  destruct (run_tests_guarded_run w self f c a tp sh ap s1)
    as (s2 & s3 & Hexec & Hguard).
  pose proof (run_tests_terminates w self s0) as Hterm.
  rewrite Hrun, Hguard in Hterm. rewrite Hguard in Hrun. clear Hguard.
  destruct (run_tests_cleanup w self tp s3) as [r s'] eqn:Hclean.
  simpl in Hterm.
  destruct (run_tests_cleanup_quiet _ _ _ _ _ _ Hclean)
    as (cleanup & Hcl & Fcl).
  assert (∃ body, trace s2 = trace s1 ++ body
                  ∧ Forall (λ ev, is_report_failure ev = false) body)
    as (body & Hbody & Fbody).
  { destruct Hexec as [[He _]|(e & He & _)];
      by apply run_tests_execute_no_failure in He. }
  assert (∃ handler,
            trace s3 = trace s2 ++ handler
            ∧ ((run_tests_execute w self f c a tp sh ap s1 = (Ok tt, s2)
                ∧ handler = [])
               ∨ (∃ e, run_tests_execute w self f c a tp sh ap s1
                        = (Err e, s2)
                    ∧ handler =
                        failure_events a (student self) (faculty_email self)
                          e)))
    as (handler & Hh & Hcases).
  { destruct Hexec as [[He ->]|(e & He & Htr & _)].
    - exists []. split; [by rewrite app_nil_r|]. by left.
    - eexists. split; [exact Htr|]. right. by exists e. }
  exists r, s', s2, prepare, body, handler, cleanup.
  split_and!; try done.
  - by rewrite Hcl, Hh, Hbody, Hprep, <-!app_assoc.
  - apply run_tests_cleanup_run in Hclean as [?|(e & ? & ? & _)];
      [by left|right; by exists e, s3].
Qed.

Lemma elem_of_failure_events a st fe e :
  EvReportFailure a st fe e ∈ failure_events a st fe e.
Proof. apply list_elem_of_here. Qed.

Lemma count_failure_events a st fe e :
  count is_report_failure (failure_events a st fe e) = 1.
Proof. done. Qed.

(** C1, as the code has it. The failure boundary is the [try] of lines
    141-179: once the preparation has returned, any exception raised while
    the environment is resolved, the image pulled, the command run, the
    result emailed or the report archived is caught; [report_failure] is
    called exactly once in the whole run, with the [str()] of the exception,
    and enqueues the apology to the student and the diagnostic to the
    faculty; the exception does not reach the caller: [run_tests] returns,
    unless the removal of the temporary directory raises afterwards. (The
    clone, the checkout, the copy of the tests, the generation of the run
    script and the change of owner come before the [try].) *)
Theorem C1_exceptions_of_the_try_body_are_reported
    (w : World) (self : Submission) (s0 s1 s2 : State)
    (faculty class assignment temp_path run_sh temp_assignment e : string) :
  reaches_try w self s0 faculty class assignment temp_path run_sh
    temp_assignment s1 →
  run_tests_execute w self faculty class assignment temp_path run_sh
    temp_assignment s1 = (Err e, s2) →
  ∃ r s' before after,
    run_tests w self s0 = (r, s')
    ∧ trace s2 = trace s0 ++ before
    ∧ trace s' =
        trace s0 ++ before
        ++ [EvReportFailure assignment (student self) (faculty_email self) e;
            EvEmail (apology_email assignment (student self));
            EvEmail (diagnostic_email assignment (student self)
                       (faculty_email self) e)]
        ++ after
    ∧ count is_report_failure before = 0
    ∧ count is_report_failure after = 0
    ∧ (r = Ok tt
       ∨ ∃ e' s3, r = Err e' ∧ w_rm w s3 temp_path true true = Raises e').
Proof.
  intros Hreach Hexec.
  destruct (run_tests_after_try _ _ _ _ _ _ _ _ _ _ Hreach)
    as (r & s' & s2' & prepare & body' & handler & cleanup & Hrun & _ & Hs1
        & Hs2 & Htrace & Fprep & Fbody & Fclean & Hcases & Hend).
  destruct Hcases as [[He _]|(e' & He & ->)];
    rewrite Hexec in He; [done|]. injection He as <- <-.
  exists r, s', (prepare ++ body'), cleanup. split_and!.
  - done.
  - by rewrite Hs2, Hs1, <-app_assoc.
  - by rewrite Htrace, <-!app_assoc.
  - rewrite count_app, !count_none; [done|done|by apply quiet_no_failure].
  - by apply count_none, quiet_no_failure.
  - destruct Hend as [[-> _]|(e' & s3 & -> & Hrm)]; [by left|].
    right. by exists e', s3.
Qed.

Lemma C1_witness :
  let k := Scenario.with_run (Raises "sudo: a password is required")
             (Scenario.fine HOST) in
  let r := run_tests (Scenario.world k) (Scenario.submission Scenario.alice)
             Scenario.start in
  r.1 = Ok tt ∧ count is_report_failure (trace r.2) = 1.
Proof.
  cbv zeta.
  set (k := Scenario.with_run (Raises "sudo: a password is required")
              (Scenario.fine HOST)).
  destruct (C1_exceptions_of_the_try_body_are_reported
              (Scenario.world k) (Scenario.submission Scenario.alice)
              Scenario.start (Scenario.prepared k Scenario.alice)
              (run_tests_execute (Scenario.world k)
                 (Scenario.submission Scenario.alice) "prof" "cs1" "hw1"
                 Scenario.temp Scenario.temp_sh Scenario.temp_hw
                 (Scenario.prepared k Scenario.alice)).2
              "prof" "cs1" "hw1" Scenario.temp Scenario.temp_sh
              Scenario.temp_hw "sudo: a password is required")
    as (r & s' & before & after & Hrun & _ & Htrace & Hb & Ha & Hr).
  - repeat split; vm_compute; reflexivity.
  - vm_compute. reflexivity.
  - rewrite Hrun. simpl. split.
    + destruct Hr as [->|(e' & s3 & _ & Hrm)]; [done|]. discriminate Hrm.
    + rewrite Htrace, !count_app, Hb, Ha. reflexivity.
Defined.

(** The claim of C1 fails for the steps that precede the [try]: when the
    change of owner raises, the exception reaches the caller of [run_tests]
    and [report_failure] is not called. *)
Lemma C1_counterexample :
  let k := Scenario.with_chown (Raises "chown: operation not permitted")
             (Scenario.fine HOST) in
  let r := run_tests (Scenario.world k) (Scenario.submission Scenario.alice)
             Scenario.start in
  r.1 = Err "chown: operation not permitted"
  ∧ count is_report_failure (trace r.2) = 0
  ∧ count is_email (trace r.2) = 0.
Proof. vm_compute. done. Qed.

(** C2, as the code has it. Once the preparation has returned, the removal
    of the temporary directory runs on every branch (the [try] body
    returned for a student, returned for the faculty owner, or raised and
    was reported): [run_tests] always ends; when it returns the directory
    does not exist; it returns unless the removal itself raises, and then
    that is the exception it ends with. (An exception of the preparation
    leaves [run_tests] before the removal.) *)
Theorem C2_temporary_directory_is_removed_after_the_try
    (w : World) (self : Submission) (s0 s1 : State)
    (faculty class assignment temp_path run_sh temp_assignment : string) :
  reaches_try w self s0 faculty class assignment temp_path run_sh
    temp_assignment s1 →
  ∃ r s',
    run_tests w self s0 = (r, s')
    ∧ r ≠ Diverges
    ∧ (r = Ok tt → os_path_isdir temp_path s' = false)
    ∧ ((∀ s, w_rm w s temp_path true true = Returns tt) → r = Ok tt)
    ∧ (∀ e, r = Err e → ∃ s3, w_rm w s3 temp_path true true = Raises e).
Proof.
  intros Hreach.
  destruct (run_tests_after_try _ _ _ _ _ _ _ _ _ _ Hreach)
    as (r & s' & s2 & prepare & body' & handler & cleanup & Hrun & Hdiv & _
        & _ & _ & _ & _ & _ & _ & Hend).
  exists r, s'. split_and!; [done|done| | |].
  - intros ->. destruct Hend as [[_ Hgone]|(e & s3 & ? & _)]; [|done].
    by apply bool_decide_eq_false.
  - intros Hrm. destruct Hend as [[-> _]|(e & s3 & _ & Hraise)]; [done|].
    by rewrite Hrm in Hraise.
  - intros e ->. destruct Hend as [[? _]|(e' & s3 & [= <-] & Hraise)];
      [done|]. by exists s3.
Qed.

Lemma C2_witness :
  let k := Scenario.with_commit (Raises "git commit failed")
             (Scenario.fine HOST) in
  let r := run_tests (Scenario.world k) (Scenario.submission Scenario.alice)
             Scenario.start in
  r.1 = Ok tt ∧ os_path_isdir Scenario.temp r.2 = false.
Proof.
  cbv zeta.
  set (k := Scenario.with_commit (Raises "git commit failed")
              (Scenario.fine HOST)).
  destruct (C2_temporary_directory_is_removed_after_the_try
              (Scenario.world k) (Scenario.submission Scenario.alice)
              Scenario.start (Scenario.prepared k Scenario.alice)
              "prof" "cs1" "hw1" Scenario.temp Scenario.temp_sh
              Scenario.temp_hw)
    as (r & s' & Hrun & _ & Hgone & Hok & _).
  - repeat split; vm_compute; reflexivity.
  - rewrite Hrun. simpl.
    assert (r = Ok tt) as -> by (apply Hok; intros s; reflexivity).
    split; [reflexivity|]. by apply Hgone.
Defined.

(** The claim of C2 fails when the preparation raises: the clone fails, the
    exception leaves [run_tests], and the temporary directory made by
    [mkdtemp] is still there. *)
Lemma C2_counterexample :
  let k := Scenario.with_clone (Raises "fatal: repository not found")
             (Scenario.fine HOST) in
  let r := run_tests (Scenario.world k) (Scenario.submission Scenario.alice)
             Scenario.start in
  r.1 = Err "fatal: repository not found"
  ∧ os_path_isdir Scenario.temp r.2 = true
  ∧ EvMkdtemp "/home/tester" "1520424009_" ∈ trace r.2
  ∧ EvRm Scenario.temp true true ∉ trace r.2.
Proof.
  vm_compute. split_and!; [done|done| |].
  - apply list_elem_of_In. simpl. tauto.
  - intros H. apply list_elem_of_In in H. simpl in H. intuition discriminate.
Qed.

(** C4. When the environment descriptor read at the head of the [try]
    resolves to a type that is none of host, firejail and docker, no test
    process is spawned in the whole run and [report_failure] is called
    exactly once, with the message naming the unknown type. *)
Theorem C4_unknown_environment_type
    (w : World) (self : Submission) (s0 s1 : State)
    (faculty class assignment temp_path run_sh temp_assignment : string)
    (test_env : TestEnv) (shown : string) :
  reaches_try w self s0 faculty class assignment temp_path run_sh
    temp_assignment s1 →
  w_TestEnv w s1 (test_env_path (assignment_dir self)) = Returns test_env →
  type test_env = OTHER shown →
  ∃ r s' evs,
    run_tests w self s0 = (r, s')
    ∧ r ≠ Diverges
    ∧ trace s' = trace s0 ++ evs
    ∧ count is_spawn evs = 0
    ∧ count is_report_failure evs = 1
    ∧ EvReportFailure assignment (student self) (faculty_email self)
        ("Unknown test env type " +:+ shown) ∈ evs.
Proof.
  intros Hreach Henv Htype.
  assert (run_tests_execute w self faculty class assignment temp_path run_sh
            temp_assignment s1
          = (Err ("Unknown test env type " +:+ shown),
             log (EvTestEnv (test_env_path (assignment_dir self))) s1))
    as Hexec.
  { unfold run_tests_execute, run_tests_make_cmd, TestEnv_load, bind, call.
    rewrite Henv, Htype. done. }
  destruct (run_tests_after_try _ _ _ _ _ _ _ _ _ _ Hreach)
    as (r & s' & s2 & prepare & body' & handler & cleanup & Hrun & Hdiv & Hs1
        & Hs2 & Htrace & Fprep & Fbody & Fclean & Hcases & _).
  destruct Hcases as [[He _]|(e & He & ->)]; rewrite Hexec in He; [done|].
  injection He as <- <-. simpl in Hs2.
  apply app_inv_head in Hs2 as <-.
  exists r, s', (prepare ++ [EvTestEnv (test_env_path (assignment_dir self))]
                 ++ failure_events assignment (student self)
                      (faculty_email self)
                      ("Unknown test env type " +:+ shown)
                 ++ cleanup).
  split_and!; [done|done|done| | |].
  - rewrite !count_app, (count_none _ prepare), (count_none _ cleanup);
      [done|by apply quiet_no_spawn..].
  - rewrite !count_app, (count_none _ prepare), (count_none _ cleanup);
      [done|by apply quiet_no_failure..].
  - rewrite !elem_of_app. right. right. left. apply elem_of_failure_events.
Qed.

Lemma C4_witness :
  let k := Scenario.fine (OTHER "TestEnvType.VM") in
  let r := run_tests (Scenario.world k) (Scenario.submission Scenario.alice)
             Scenario.start in
  count is_spawn (trace r.2) = 0 ∧ count is_report_failure (trace r.2) = 1.
Proof.
  cbv zeta.
  set (k := Scenario.fine (OTHER "TestEnvType.VM")).
  destruct (C4_unknown_environment_type
              (Scenario.world k) (Scenario.submission Scenario.alice)
              Scenario.start (Scenario.prepared k Scenario.alice)
              "prof" "cs1" "hw1" Scenario.temp Scenario.temp_sh
              Scenario.temp_hw (Scenario.env (OTHER "TestEnvType.VM"))
              "TestEnvType.VM")
    as (r & s' & evs & Hrun & _ & Htrace & Hspawn & Hfail & _).
  - repeat split; vm_compute; reflexivity.
  - reflexivity.
  - reflexivity.
  - rewrite Hrun. simpl. rewrite Htrace. simpl. by split.
Defined.

(** ** No action script (C3) *)

Lemma ends_raised_bind {A B} P (m : M A) (f : A → M B) :
  ends P raised m → ends P raised (bind m f).
Proof.
  intros Hm s r s' H.
  apply bind_inv in H as [(a & s1 & H1 & _)|[(e & H1 & ->)|[H1 _]]].
  - apply Hm in H1 as [[e ?] _]. done.
  - apply Hm in H1 as [_ ?]. split; [by exists e|done].
  - apply Hm in H1 as [[e ?] _]. done.
Qed.

Lemma ends_bind_raised {A B} P (m : M A) (f : A → M B) :
  emits P m → terminates m → (∀ a, ends P raised (f a)) →
  ends P raised (bind m f).
Proof.
  intros Hm Ht Hf s r s' H.
  apply bind_inv in H as [(a & s1 & H1 & H2)|[(e & H1 & ->)|[H1 _]]].
  - apply Hm in H1 as (evs1 & E1 & F1).
    apply Hf in H2 as (Hr & evs2 & E2 & F2). split; [done|].
    exists (evs1 ++ evs2). split; [by rewrite E2, E1, app_assoc|].
    by apply Forall_app.
  - apply Hm in H1. split; [by exists e|done].
  - specialize (Ht s). by rewrite H1 in Ht.
Qed.

Lemma ends_raised_emits {A} P (m : M A) : ends P raised m → emits P m.
Proof. intros Hm s r s' H. by apply Hm in H as [_ ?]. Qed.

Lemma write_run_action_sh_no_script w dest tests run_path s :
  no_action_script w tests →
  ∃ e s',
    write_run_action_sh w dest tests run_path s = (Err e, s')
    ∧ files s' = files s ∧ dirs s' = dirs s
    ∧ (∃ evs, trace s' = trace s ++ evs ∧ Forall nothing_produced evs)
    ∧ (∀ tmp, w_TemporaryDirectory w s = Returns tmp →
         e = "No valid action script found").
Proof.
  intros Hno.
  unfold write_run_action_sh, TemporaryDirectory,
    get_action_script_and_interpreter, bind, call.
  destruct (w_TemporaryDirectory w s) as [tmp|e] eqn:Etmp.
  - destruct (Hno (log EvTemporaryDirectory s)) as (sn & it & -> & Hnone).
    exists "No valid action script found".
    eexists. split.
    { destruct Hnone as [-> | ->]; [reflexivity|]. destruct sn; reflexivity. }
    simpl. split_and!; [done|done| |done].
    exists [EvTemporaryDirectory; EvGetActionScript tests].
    split; [by rewrite <-app_assoc|]. by repeat constructor.
  - exists e. eexists. split; [reflexivity|]. simpl.
    split_and!; [done|done| |done].
    exists [EvTemporaryDirectory]. split; [done|]. by repeat constructor.
Qed.

Lemma write_run_action_sh_raises w dest tests run_path :
  no_action_script w tests →
  ends nothing_produced raised (write_run_action_sh w dest tests run_path).
Proof.
  intros Hno s r s' H.
  destruct (write_run_action_sh_no_script w dest tests run_path s Hno)
    as (e & s'' & Hrun & _ & _ & Hevs & _).
  rewrite Hrun in H. injection H as <- <-. split; [by exists e|done].
Qed.

Lemma run_tests_prepare_raises w self assignment :
  no_action_script w (tests_path (assignment_dir self)) →
  ends nothing_produced raised (run_tests_prepare w self assignment).
Proof.
  intros Hno. unfold run_tests_prepare.
  repeat (apply ends_bind_raised;
          [ emits_auto; done | terminates_auto | intros ? ]).
  apply ends_raised_bind.
  destruct (type _); by apply write_run_action_sh_raises.
Qed.

Lemma run_tests_nothing_produced w self :
  no_action_script w (tests_path (assignment_dir self)) →
  emits nothing_produced (run_tests w self).
Proof.
  intros Hno. unfold run_tests.
  apply emits_bind; [emits_auto|]. intros [[f c] a].
  apply emits_bind; [emits_auto|]. intros open.
  destruct (negb open).
  { unfold _send_closed_email. emits_auto; done. }
  apply emits_bind; [emits_auto|]. intros disabled.
  destruct disabled.
  { unfold _send_disabled_email. emits_auto; done. }
  apply emits_bind; [emits_auto; done|]. intros _.
  apply ends_raised_emits, ends_raised_bind.
  by apply run_tests_prepare_raises.
Qed.

(** C3, as the code has it. When the test assets hold no action script with
    an interpreter, [write_run_action_sh] raises without writing or moving
    any file (with the message [No valid action script found] once its
    temporary directory is made), and in a run of [run_tests] no run script
    is written, no process is spawned, and the exception is raised by the
    preparation, before the [try]: a run that passes the precondition check
    ends with an exception, and [report_failure] is not called. *)
Theorem C3_no_action_script_fails_the_run
    (w : World) (tests : string) :
  no_action_script w tests →
  (∀ dest run_path s,
     ∃ e s',
       write_run_action_sh w dest tests run_path s = (Err e, s')
       ∧ files s' = files s ∧ dirs s' = dirs s
       ∧ (∃ evs, trace s' = trace s ++ evs ∧ Forall nothing_produced evs)
       ∧ (∀ tmp, w_TemporaryDirectory w s = Returns tmp →
            e = "No valid action script found"))
  ∧ (∀ self s0 r s',
       tests_path (assignment_dir self) = tests →
       run_tests w self s0 = (r, s') →
       (∃ evs, trace s' = trace s0 ++ evs
               ∧ Forall nothing_produced evs
               ∧ count is_spawn evs = 0
               ∧ count is_report_failure evs = 0)
       ∧ (∀ faculty class assignment,
            w_parse_submission_repo_path w s0 (student_repo_path self)
              = Returns (faculty, class, assignment) →
            w_class_is_open w s0 class faculty = Returns true →
            w_is_disabled w s0 class assignment faculty = Returns false →
            ∃ e, r = Err e)).
Proof.
  intros Hno. split.
  - intros dest run_path s. by apply write_run_action_sh_no_script.
  - intros self s0 r s' <- Hrun. split.
    + apply run_tests_nothing_produced in Hrun as (evs & E & F); [|done].
      exists evs. split_and!; [done|done| |].
      * apply count_none. eapply Forall_impl; [done|]. by intros [].
      * apply count_none. eapply Forall_impl; [done|]. by intros [].
    + intros faculty class assignment Hparse Hopen Hdis.
      revert Hrun.
      unfold run_tests, parse_submission_repo_path, class_is_open,
        is_disabled, log_debug, bind at 1 2 3 4, ask, emit.
      rewrite Hparse, Hopen. simpl. rewrite Hdis.
      intros Hrun.
      eapply ends_raised_bind in Hrun as [Hr _];
        [done|by apply run_tests_prepare_raises].
Qed.

Lemma C3_witness :
  let k := Scenario.with_action (Some "action.sh", None) (Scenario.fine DOCKER) in
  let r := run_tests (Scenario.world k) (Scenario.submission Scenario.alice)
             Scenario.start in
  (∃ e, r.1 = Err e)
  ∧ count is_spawn (trace r.2) = 0
  ∧ count is_report_failure (trace r.2) = 0.
Proof.
  cbv zeta.
  set (k := Scenario.with_action (Some "action.sh", None) (Scenario.fine DOCKER)).
  set (w := Scenario.world k).
  set (self := Scenario.submission Scenario.alice).
  assert (no_action_script w (tests_path (assignment_dir self))) as Hno.
  { intros s. exists (Some "action.sh"), None. split; [reflexivity|by right]. }
  destruct (C3_no_action_script_fails_the_run w _ Hno) as [_ Hrun].
  destruct (run_tests w self Scenario.start) as [r s'] eqn:E.
  destruct (Hrun self Scenario.start r s' eq_refl E)
    as [(evs & Htrace & _ & Hspawn & Hfail) Hraise].
  simpl. split_and!.
  - by apply (Hraise "prof" "cs1" "hw1").
  - by rewrite Htrace.
  - by rewrite Htrace.
Defined.

(** The claim of C3 fails in its last part: the exception of
    [write_run_action_sh] leaves [run_tests], and [report_failure] is not
    called (no email is enqueued at all). *)
Lemma C3_counterexample :
  let k := Scenario.with_action (None, None) (Scenario.fine HOST) in
  let r := run_tests (Scenario.world k) (Scenario.submission Scenario.alice)
             Scenario.start in
  r.1 = Err "No valid action script found"
  ∧ count is_report_failure (trace r.2) = 0
  ∧ count is_email (trace r.2) = 0
  ∧ count is_spawn (trace r.2) = 0.
Proof. vm_compute. done. Qed.

(** ** The result email and the report (C5, C10) *)

Lemma run_tests_make_cmd_quiet_but_spawn w self a tp sh ap :
  emits (λ ev, is_email ev = false ∧ is_report_failure ev = false ∧ no_report ev)
    (run_tests_make_cmd w self a tp sh ap).
Proof. unfold run_tests_make_cmd. emits_auto; quiet_event. Qed.

Lemma archive_emits w self report_body :
  emits (λ ev, is_email ev = false ∧ is_report_failure ev = false)
    (with_lock w (path (assignment_dir self)) (_add_report w self report_body)).
Proof. unfold _add_report. emits_auto; done. Qed.

Lemma report_failure_no_report assignment student faculty_address message :
  emits no_report
    (report_failure assignment student faculty_address message).
Proof. unfold report_failure. emits_auto; quiet_event. Qed.

Lemma run_tests_guarded_owner w self f c a tp sh ap :
  username (student self) = f →
  emits no_report (run_tests_guarded w self f c a tp sh ap).
Proof.
  intros Hf. unfold run_tests_guarded.
  apply emits_bind; [apply emits_try_except|intros _].
  - by apply run_tests_execute_owner.
  - intros e. apply report_failure_no_report.
  - eapply emits_weaken; [|apply run_tests_cleanup_quiet].
    by intros ev (_ & _ & ? & ? & _ & ?).
Qed.

Lemma run_tests_trace w self : emits (λ _, True) (run_tests w self).
Proof.
  unfold run_tests, _send_closed_email, _send_disabled_email,
    run_tests_prepare, run_tests_guarded, run_tests_cleanup,
    run_tests_execute, run_tests_make_cmd, _add_report, report_failure,
    write_run_action_sh.
  emits_auto; done.
Qed.

(** A run whose submitter is the faculty owner named by the repository path
    records nothing of the Report Recorder, no scan notification and no
    write other than the run script. *)
Lemma run_tests_owner_no_report w self s0 f c a :
  w_parse_submission_repo_path w s0 (student_repo_path self)
    = Returns (f, c, a) →
  username (student self) = f →
  ∀ r s', run_tests w self s0 = (r, s') →
    ∃ evs, trace s' = trace s0 ++ evs ∧ Forall no_report evs.
Proof.
  intros Hparse Hf r s'.
  unfold run_tests, parse_submission_repo_path, bind at 1, ask.
  rewrite Hparse.
  match goal with
  | |- ?m s0 = _ → _ => assert (emits no_report m) as Hm
  end.
  { apply emits_bind; [unfold class_is_open; emits_auto|]. intros open.
    destruct (negb open).
    { unfold _send_closed_email. emits_auto; quiet_event. }
    apply emits_bind; [unfold is_disabled; emits_auto|]. intros disabled.
    destruct disabled.
    { unfold _send_disabled_email. emits_auto; quiet_event. }
    apply emits_bind; [emits_auto; quiet_event|]. intros _.
    apply emits_bind.
    - eapply emits_weaken; [|apply run_tests_prepare_quiet].
      by intros ev (_ & _ & ? & ? & _ & ?).
    - intros [[tp sh] ap]. by apply run_tests_guarded_owner. }
  apply Hm.
Qed.

(** The [try] body once the test process has returned its output: the
    result email is enqueued, then the report is archived unless the
    submitter is the faculty owner. *)
Lemma run_tests_execute_after_run w self f c a tp sh ap s1 cmd s2 output :
  run_tests_make_cmd w self a tp sh ap s1 = (Ok cmd, s2) →
  w_run_command w s2 cmd = Returns output →
  run_tests_execute w self f c a tp sh ap s1 =
    (if bool_decide (username (student self) ≠ f)
     then
       with_lock w (path (assignment_dir self)) (_add_report w self output) ;;;
       enqueue_submission_scan (faculty_username self)
         (class_name (assignment_dir self))
         (assignment_name (assignment_dir self))
         (username (student self))
     else ret tt)
      (log (EvEmail (result_email self c a output))
         (log (EvRunCommand cmd) s2)).
Proof.
  intros Hmk Hrun.
  unfold run_tests_execute, bind at 1. rewrite Hmk.
  unfold run_command, bind at 1, call. rewrite Hrun.
  unfold email_enqueue, bind at 1, emit. done.
Qed.

(** C5. In every run, anything of the Report Recorder, a scan notification
    or a write other than the run script is recorded only when the
    submitting student differs from the faculty owner named by the
    repository path. When the two are the same and the test process returns
    its output, the run enqueues exactly one email, the result email to the
    submitter, and records no report and no scan notification. *)
Theorem C5_report_only_for_students
    (w : World) (self : Submission) (s0 : State) (r : result unit)
    (s' : State) :
  run_tests w self s0 = (r, s') →
  ∃ evs,
    trace s' = trace s0 ++ evs
    ∧ (Exists (λ ev, is_report_recorder ev = true ∨ is_scan ev = true
                     ∨ ¬ writes_only_run_script ev) evs →
       ∃ faculty class assignment,
         w_parse_submission_repo_path w s0 (student_repo_path self)
           = Returns (faculty, class, assignment)
         ∧ username (student self) ≠ faculty)
    ∧ (∀ faculty class assignment temp_path run_sh temp_assignment s1 cmd s2
         output,
         reaches_try w self s0 faculty class assignment temp_path run_sh
           temp_assignment s1 →
         username (student self) = faculty →
         run_tests_make_cmd w self assignment temp_path run_sh
           temp_assignment s1 = (Ok cmd, s2) →
         w_run_command w s2 cmd = Returns output →
         EvEmail (result_email self class assignment output) ∈ evs
         ∧ to_address (result_email self class assignment output)
           = email_address (student self)
         ∧ count is_email evs = 1
         ∧ count is_report_recorder evs = 0
         ∧ count is_scan evs = 0
         ∧ Forall writes_only_run_script evs).
Proof.
  intros Hrun.
  destruct (run_tests_trace w self _ _ _ Hrun) as (evs & Htrace & _).
  exists evs. split_and!; [done| |].
  - intros Hex.
    destruct (w_parse_submission_repo_path w s0 (student_repo_path self))
      as [[[f c] a]|e] eqn:Hparse.
    + exists f, c, a. split; [done|]. intros Hf.
      destruct (run_tests_owner_no_report _ _ _ _ _ _ Hparse Hf _ _ Hrun)
        as (evs' & Htrace' & Fno).
      rewrite Htrace in Htrace'. apply app_inv_head in Htrace' as <-.
      apply Exists_exists in Hex as (ev & Hin & Hev).
      rewrite Forall_forall in Fno. destruct (Fno ev Hin) as (? & ? & ?).
      destruct Hev as [?|[?|?]]; congruence.
    + revert Hrun.
      unfold run_tests, parse_submission_repo_path, bind at 1, ask.
      rewrite Hparse. intros [= <- <-].
      rewrite <-(app_nil_r (trace s0)) in Htrace at 1.
      apply app_inv_head in Htrace as <-. by apply Exists_nil in Hex.
  - intros f c a tp sh ap s1 cmd s2 output Hreach Hf Hmk Hcmd.
    pose proof (run_tests_execute_after_run w self f c a tp sh ap s1 cmd s2
                  output Hmk Hcmd) as Hexec.
    rewrite bool_decide_eq_false_2 in Hexec by (by intros ?).
    destruct (run_tests_after_try _ _ _ _ _ _ _ _ _ _ Hreach)
      as (r' & s'' & s2' & prepare & body' & handler & cleanup & Hrun'
          & _ & Hs1 & Hs2 & Htrace' & Fprep & _ & Fclean & Hcases & _).
    rewrite Hrun in Hrun'. injection Hrun' as <- <-.
    destruct Hcases as [[He ->]|(e & He & _)]; rewrite Hexec in He; [|done].
    injection He as <-.
    destruct (run_tests_make_cmd_quiet_but_spawn _ _ _ _ _ _ _ _ _ Hmk)
      as (mk & Hmk_trace & Fmk).
    simpl in Hs2. rewrite Hmk_trace, <-!app_assoc in Hs2.
    apply app_inv_head in Hs2 as <-.
    rewrite Htrace in Htrace'. apply app_inv_head in Htrace' as ->.
    split_and!.
    + rewrite !elem_of_app, !list_elem_of_singleton. tauto.
    + done.
    + rewrite !count_app, (count_none _ prepare), (count_none _ mk),
        (count_none _ cleanup); [done| | |].
      * eapply Forall_impl; [done|]. by intros ev (_ & _ & _ & _ & ? & _).
      * eapply Forall_impl; [done|]. by intros ev (? & _).
      * eapply Forall_impl; [done|]. by intros ev (_ & _ & _ & _ & ? & _).
    + rewrite !count_app, (count_none _ prepare), (count_none _ mk),
        (count_none _ cleanup); [done| | |].
      * eapply Forall_impl; [done|]. by intros ev (_ & _ & ? & _).
      * eapply Forall_impl; [done|]. by intros ev (_ & _ & ? & _).
      * eapply Forall_impl; [done|]. by intros ev (_ & _ & ? & _).
    + rewrite !count_app, (count_none _ prepare), (count_none _ mk),
        (count_none _ cleanup); [done| | |].
      * eapply Forall_impl; [done|]. by intros ev (_ & _ & _ & ? & _).
      * eapply Forall_impl; [done|]. by intros ev (_ & _ & _ & ? & _).
      * eapply Forall_impl; [done|]. by intros ev (_ & _ & _ & ? & _).
    + rewrite !Forall_app. split_and!; try by repeat constructor.
      * eapply Forall_impl; [done|]. by intros ev (_ & _ & _ & _ & _ & ?).
      * eapply Forall_impl; [done|]. by intros ev (_ & _ & _ & _ & ?).
      * eapply Forall_impl; [done|]. by intros ev (_ & _ & _ & _ & _ & ?).
Qed.

Lemma C5_witness :
  let r := run_tests (Scenario.world (Scenario.fine FIREJAIL))
             (Scenario.submission Scenario.prof) Scenario.start in
  r.1 = Ok tt
  ∧ count is_email (trace r.2) = 1
  ∧ count is_report_recorder (trace r.2) = 0
  ∧ count is_scan (trace r.2) = 0.
Proof.
  cbv zeta.
  set (w := Scenario.world (Scenario.fine FIREJAIL)).
  set (self := Scenario.submission Scenario.prof).
  destruct (C5_report_only_for_students w self Scenario.start
              (run_tests w self Scenario.start).1
              (run_tests w self Scenario.start).2
              (surjective_pairing _))
    as (evs & Htrace & _ & Hrun).
  destruct (Hrun "prof" "cs1" "hw1" Scenario.temp Scenario.temp_sh
              Scenario.temp_hw
              (Scenario.prepared (Scenario.fine FIREJAIL) Scenario.prof)
              (_make_firejail_command w self Scenario.temp "hw1"
                 (Some "--net=none"))
              (log (EvTestEnv "/home/prof/cs1/hw1/test_env.yaml")
                 (Scenario.prepared (Scenario.fine FIREJAIL) Scenario.prof))
              "all tests passed")
    as (_ & _ & Hemail & Hrec & Hscan & _).
  - repeat split; vm_compute; reflexivity.
  - reflexivity.
  - vm_compute. reflexivity.
  - reflexivity.
  - rewrite Htrace. split_and!; [by vm_compute|done..].
Defined.

(** C10. When the test process has returned its output and archiving the
    report then fails (the lock or [_add_report] raises), the result email to
    the student was enqueued before: the trace has the command, the result
    email, the events of the failed archiving, then [report_failure] with the
    exception and its two emails, the apology going to the same student
    address. The result email is not withheld. *)
Theorem C10_result_email_precedes_the_failure_report
    (w : World) (self : Submission) (s0 s1 s2 s3 : State)
    (faculty class assignment temp_path run_sh temp_assignment : string)
    (cmd : list string) (output e : string) :
  reaches_try w self s0 faculty class assignment temp_path run_sh
    temp_assignment s1 →
  run_tests_make_cmd w self assignment temp_path run_sh temp_assignment s1
    = (Ok cmd, s2) →
  w_run_command w s2 cmd = Returns output →
  username (student self) ≠ faculty →
  with_lock w (path (assignment_dir self)) (_add_report w self output)
    (log (EvEmail (result_email self class assignment output))
       (log (EvRunCommand cmd) s2))
    = (Err e, s3) →
  ∃ r s' before archive after,
    run_tests w self s0 = (r, s')
    ∧ r ≠ Diverges
    ∧ trace s' =
        trace s0 ++ before
        ++ [EvRunCommand cmd;
            EvEmail (result_email self class assignment output)]
        ++ archive
        ++ [EvReportFailure assignment (student self) (faculty_email self) e;
            EvEmail (apology_email assignment (student self));
            EvEmail (diagnostic_email assignment (student self)
                       (faculty_email self) e)]
        ++ after
    ∧ to_address (result_email self class assignment output)
      = email_address (student self)
    ∧ to_address (apology_email assignment (student self))
      = email_address (student self)
    ∧ count is_email (before ++ archive ++ after) = 0
    ∧ count is_report_failure (before ++ archive ++ after) = 0.
Proof.
  intros Hreach Hmk Hcmd Hne Harchive.
  pose proof (run_tests_execute_after_run w self faculty class assignment
                temp_path run_sh temp_assignment s1 cmd s2 output Hmk Hcmd)
    as Hexec.
  rewrite bool_decide_eq_true_2 in Hexec by done.
  unfold bind at 1 in Hexec. rewrite Harchive in Hexec.
  destruct (run_tests_after_try _ _ _ _ _ _ _ _ _ _ Hreach)
    as (r & s' & s2' & prepare & body' & handler & cleanup & Hrun & Hdiv
        & Hs1 & Hs2 & Htrace & Fprep & _ & Fclean & Hcases & _).
  destruct Hcases as [[He _]|(e' & He & ->)]; rewrite Hexec in He; [done|].
  injection He as <- <-.
  destruct (run_tests_make_cmd_quiet_but_spawn _ _ _ _ _ _ _ _ _ Hmk)
    as (mk & Hmk_trace & Fmk).
  destruct (archive_emits _ _ _ _ _ _ Harchive) as (archive & Harch & Farch).
  simpl in Harch. rewrite Hmk_trace, Hs2, <-!app_assoc in Harch.
  apply app_inv_head in Harch as ->.
  exists r, s', (prepare ++ mk), archive, cleanup.
  split_and!; [done|done| |done|done| |].
  - rewrite Htrace, <-!app_assoc. done.
  - rewrite !count_app, (count_none _ prepare), (count_none _ mk),
      (count_none _ archive), (count_none _ cleanup);
      [done|forall_from..].
  - rewrite !count_app, (count_none _ prepare), (count_none _ mk),
      (count_none _ archive), (count_none _ cleanup);
      [done|forall_from..].
Qed.

Lemma C10_witness :
  let k := Scenario.with_commit (Raises "git commit failed")
             (Scenario.fine HOST) in
  let r := run_tests (Scenario.world k) (Scenario.submission Scenario.alice)
             Scenario.start in
  r.1 = Ok tt
  ∧ count is_email (trace r.2) = 3
  ∧ count is_report_failure (trace r.2) = 1.
Proof.
  cbv zeta.
  set (k := Scenario.with_commit (Raises "git commit failed")
              (Scenario.fine HOST)).
  set (w := Scenario.world k).
  set (self := Scenario.submission Scenario.alice).
  set (cmd := _make_host_command w self Scenario.temp_sh Scenario.temp_hw).
  set (s2 := log (EvTestEnv "/home/prof/cs1/hw1/test_env.yaml")
               (Scenario.prepared k Scenario.alice)).
  destruct (C10_result_email_precedes_the_failure_report w self
              Scenario.start (Scenario.prepared k Scenario.alice) s2
              (with_lock w (path (assignment_dir self))
                 (_add_report w self "all tests passed")
                 (log (EvEmail (result_email self "cs1" "hw1"
                                  "all tests passed"))
                    (log (EvRunCommand cmd) s2))).2
              "prof" "cs1" "hw1" Scenario.temp Scenario.temp_sh
              Scenario.temp_hw cmd "all tests passed" "git commit failed")
    as (r & s' & before & archive & after & Hrun & _ & Htrace & _ & _
        & Hemail & Hfail).
  - repeat split; vm_compute; reflexivity.
  - vm_compute. reflexivity.
  - reflexivity.
  - discriminate.
  - vm_compute. reflexivity.
  - assert ((run_tests w self Scenario.start).1 = Ok tt) as Hok
      by (vm_compute; reflexivity).
    rewrite Hrun in Hok |- *. simpl in Hok |- *. split_and!.
    + exact Hok.
    + rewrite Htrace. rewrite !count_app in Hemail. rewrite !count_app.
      change (count is_email (trace Scenario.start)) with 0.
      change (count is_email [_; _]) with 1.
      change (count is_email [_; _; _]) with 2. lia.
    + rewrite Htrace. rewrite !count_app in Hfail. rewrite !count_app.
      change (count is_report_failure (trace Scenario.start)) with 0.
      change (count is_report_failure [_; _]) with 0.
      change (count is_report_failure [_; _; _]) with 1. lia.
Defined.

(** ** Worked examples for C6 and C7 *)

Lemma C7_witness :
  let w := Scenario.world (Scenario.fine HOST) in
  let r := write_run_action_sh w Scenario.temp_sh "/home/prof/cs1/hw1/tests"
             (Some Scenario.temp) Scenario.start in
  r.1 = Ok tt
  ∧ ∃ p text, files r.2 !! Scenario.temp_sh = Some text
      ∧ EvWrite p text ∈ trace r.2.
Proof.
  cbv zeta.
  set (w := Scenario.world (Scenario.fine HOST)).
  set (r := write_run_action_sh w Scenario.temp_sh "/home/prof/cs1/hw1/tests"
              (Some Scenario.temp) Scenario.start).
  assert (r = (Ok tt, r.2)) as Hr by (vm_compute; reflexivity).
  split; [by rewrite Hr|].
  destruct (C7_run_script_is_bit_exact w Scenario.temp_sh
              "/home/prof/cs1/hw1/tests" (Some Scenario.temp)
              Scenario.start r.2 Hr)
    as (tmp & script_name & interpreter & Hfound & Htrace & Hfile & _).
  cbv zeta in Htrace, Hfile.
  eexists _, _. split; [exact Hfile|].
  rewrite Htrace. rewrite !elem_of_app, !list_elem_of_In. right. simpl. tauto.
Defined.

Lemma C6_witness :
  let w := Scenario.world (Scenario.fine HOST) in
  let self := Scenario.submission Scenario.alice in
  let s1 := (_add_report w self "first run" Scenario.start).2 in
  let s2 := (_add_report w self "second run" s1).2 in
  files s2 !! "/reports/Liddell_Alice_alice/report-2018-03-07_12-00-09-UTC.txt"
    = Some "first run"
  ∧ files s2
      !! "/reports/Liddell_Alice_alice/report-2018-03-07_12-00-09-UTC-1.txt"
    = Some "second run".
Proof.
  cbv zeta.
  set (w := Scenario.world (Scenario.fine HOST)).
  set (self := Scenario.submission Scenario.alice).
  set (s1 := (_add_report w self "first run" Scenario.start).2).
  set (s2 := (_add_report w self "second run" s1).2).
  destruct (C6_report_names_never_collide w self) as (_ & _ & _ & Htwo).
  destruct (Htwo "/reports" "2018-03-07_12-00-09-UTC" "first run" "second run"
              Scenario.start s1 s2) as (_ & Hfirst & Hsecond).
  - intros s. reflexivity.
  - intros s. vm_compute. reflexivity.
  - vm_compute. reflexivity.
  - vm_compute. reflexivity.
  - vm_compute. reflexivity.
  - vm_compute. reflexivity.
  - split; [exact Hfirst|exact Hsecond].
Defined.

(** * Further properties *)

(** ** The robot keywords *)

Lemma string_prefix_spec a b :
  String.prefix a b = true ↔ ∃ rest, b = a +:+ rest.
Proof.
  revert b. induction a as [|c a IH]; intros b.
  - split; [intros _; by exists b|intros _; by destruct b].
  - destruct b as [|c' b].
    + split; [done|]. by intros [rest ?].
    + cbn [String.prefix]. destruct (ascii_dec c c') as [->|Hne].
      * rewrite IH. split.
        -- intros [rest ->]. by exists rest.
        -- intros [rest H]. rewrite string_app_cons in H.
           injection H as ->. by exists rest.
      * split; [done|]. intros [rest H]. rewrite string_app_cons in H.
        by injection H as ? _.
Qed.

Lemma contains_unfold sub s :
  Robot.contains sub s
  = String.prefix sub s
    || match s with
       | EmptyString => false
       | String _ s' => Robot.contains sub s'
       end.
Proof. by destruct s. Qed.

Lemma contains_spec sub s :
  Robot.contains sub s = true ↔ Robot.occurs_in sub s.
Proof.
  unfold Robot.occurs_in. split.
  - induction s as [|c s IH]; rewrite contains_unfold, orb_true_iff.
    + intros [H|?]; [|done]. apply string_prefix_spec in H as [rest ->].
      by exists EmptyString, rest.
    + intros [H|H].
      * apply string_prefix_spec in H as [rest ->]. by exists EmptyString, rest.
      * apply IH in H as (before & after & ->).
        by exists (String c before), after.
  - intros (before & after & ->).
    induction before as [|c before IH]; rewrite contains_unfold.
    + assert (String.prefix sub (sub +:+ after) = true) as H
        by (apply string_prefix_spec; by exists after).
      change (EmptyString +:+ sub +:+ after) with (sub +:+ after).
      by rewrite H.
    + rewrite string_app_cons, IH. apply orb_true_r.
Qed.

Lemma contains_empty s : Robot.contains EmptyString s = true.
Proof. rewrite contains_unfold. by destruct s. Qed.

Lemma assert_each_in_spec results expected :
  (Robot.assert_each_in results expected = Robot.Returned tt
   ↔ Forall (λ e, Robot.occurs_in e results) expected)
  ∧ (Robot.assert_each_in results expected = Robot.Raised Robot.AssertionError
     ↔ Exists (λ e, ¬ Robot.occurs_in e results) expected).
Proof.
  induction expected as [|e rest [IHr IHa]]; simpl.
  - split; split; [by constructor|done|done|by intros ?%Exists_nil].
  - rewrite Forall_cons, Exists_cons, <-contains_spec.
    destruct (Robot.contains e results); simpl.
    + rewrite IHr, IHa. split; split; intuition congruence.
    + split; split; intuition congruence.
Qed.

Lemma assert_each_not_in_spec results forbidden :
  (Robot.assert_each_not_in results forbidden = Robot.Returned tt
   ↔ Forall (λ e, ¬ Robot.occurs_in e results) forbidden)
  ∧ (Robot.assert_each_not_in results forbidden
       = Robot.Raised Robot.AssertionError
     ↔ Exists (λ e, Robot.occurs_in e results) forbidden).
Proof.
  induction forbidden as [|e rest [IHr IHa]]; simpl.
  - split; split; [by constructor|done|done|by intros ?%Exists_nil].
  - rewrite Forall_cons, Exists_cons, <-contains_spec.
    destruct (Robot.contains e results); simpl.
    + split; split; intuition congruence.
    + rewrite IHr, IHa. split; split; intuition congruence.
Qed.

(** Each [_succeeds] keyword and its [_fails] keyword build the same
    command, and for every answer of the client exactly one of the two
    passes when the command returns or exits with a non-zero status: the
    [_succeeds] keyword passes when it returns, and then the [_fails]
    keyword raises [GkeepRobotException] with [<verb> should have non-zero
    return]; the [_fails] keyword passes on [ExitCodeException], which the
    [_succeeds] keyword lets through; an exception of any other class leaves
    both keywords. This covers add, modify, add_faculty, upload, publish and
    trigger (with and without a student). *)
Theorem robot_succeeds_and_fails_are_opposite
    (run : Robot.Client) (user a b : string) (student_name : option string) :
  Robot.opposite (run user ("gkeep add " +:+ a +:+ " " +:+ a +:+ ".csv"))
    "gkeep add"
    (Robot.gkeep_add_succeeds run user a) (Robot.gkeep_add_fails run user a)
  ∧ Robot.opposite
      (run user ("gkeep modify " +:+ a +:+ " " +:+ a +:+ ".csv"))
      "gkeep modify"
      (Robot.gkeep_modify_succeeds run user a)
      (Robot.gkeep_modify_fails run user a)
  ∧ Robot.opposite
      (run user ("gkeep add_faculty Professor Doctor " +:+ a +:+ "@school.edu"))
      "gkeep add_faculty"
      (Robot.gkeep_add_faculty_succeeds run user a)
      (Robot.gkeep_add_faculty_fails run user a)
  ∧ Robot.opposite (run user ("gkeep upload " +:+ a +:+ " " +:+ b))
      "gkeep upload"
      (Robot.gkeep_upload_succeeds run user a b)
      (Robot.gkeep_upload_fails run user a b)
  ∧ Robot.opposite (run user ("gkeep publish " +:+ a +:+ " " +:+ b))
      "gkeep publish"
      (Robot.gkeep_publish_succeeds run user a b)
      (Robot.gkeep_publish_fails run user a b)
  ∧ Robot.opposite
      (run user
         ("gkeep trigger " +:+ a +:+ " " +:+ b
          +:+ from_option (λ s, " " +:+ s) EmptyString student_name))
      "gkeep trigger"
      (Robot.gkeep_trigger_succeeds run user a b student_name)
      (Robot.gkeep_trigger_fails run user a b student_name)
  ∧ ∀ command verb succeeds fails,
      Robot.opposite command verb succeeds fails →
      ¬ (Robot.passes succeeds ∧ Robot.passes fails)
      ∧ (Robot.passes succeeds ↔ ∃ output, command = Robot.Returned output)
      ∧ (Robot.passes fails
         ↔ ∃ message,
             command = Robot.Raised (Robot.ExitCodeException message)).
Proof.
  assert (∀ s, s +:+ EmptyString = s) as app_nil.
  { induction s as [|c s IH]; [done|]. by rewrite string_app_cons, IH. }
  split_and!.
  - unfold Robot.gkeep_add_succeeds, Robot.gkeep_add_fails. cbv zeta.
    by destruct (run _ _) as [|[]].
  - unfold Robot.gkeep_modify_succeeds, Robot.gkeep_modify_fails. cbv zeta.
    by destruct (run _ _) as [|[]].
  - unfold Robot.gkeep_add_faculty_succeeds, Robot.gkeep_add_faculty_fails,
      Robot.add_faculty_command. cbv zeta.
    change ("gkeep add_faculty " +:+ "Professor" +:+ " " +:+ "Doctor" +:+ " "
            +:+ a +:+ "@school.edu")
      with ("gkeep add_faculty Professor Doctor " +:+ a +:+ "@school.edu").
    by destruct (run _ _) as [|[]].
  - unfold Robot.gkeep_upload_succeeds, Robot.gkeep_upload_fails.
    by destruct (run _ _) as [|[]].
  - unfold Robot.gkeep_publish_succeeds, Robot.gkeep_publish_fails.
    by destruct (run _ _) as [|[]].
  - unfold Robot.gkeep_trigger_succeeds, Robot.gkeep_trigger_fails.
    destruct student_name as [student|]; simpl.
    + by destruct (run _ _) as [|[]].
    + rewrite app_nil. by destruct (run _ _) as [|[]].
  - intros command verb succeeds fails H. unfold Robot.passes.
    destruct command as [output|[]]; simpl in H; destruct H as [-> ->];
      split_and!; try (by intros [? ?]); split; try done;
      try (by intros [? ?]); eauto.
Qed.

(** [gkeep_query_contains] passes exactly when the query returns and every
    expected string occurs in its output (so it passes for any output when
    nothing is expected); it raises [AssertionError] exactly when the query
    returns and some expected string does not occur; an exception of the
    query is passed on. *)
Theorem robot_query_contains_checks_every_string
    (run : Robot.Client) (faculty sub_command : string)
    (expected : list string) :
  let query := run faculty ("gkeep query " +:+ sub_command) in
  let keyword := Robot.gkeep_query_contains run faculty sub_command expected in
  (Robot.passes keyword
   ↔ ∃ results, query = Robot.Returned results
       ∧ Forall (λ e, Robot.occurs_in e results) expected)
  ∧ (keyword = Robot.Raised Robot.AssertionError
     ↔ (∃ results, query = Robot.Returned results
          ∧ Exists (λ e, ¬ Robot.occurs_in e results) expected)
       ∨ query = Robot.Raised Robot.AssertionError)
  ∧ (∀ e, query = Robot.Raised e → keyword = Robot.Raised e)
  ∧ (expected = [] →
     (Robot.passes keyword ↔ ∃ results, query = Robot.Returned results)).
Proof.
  cbv zeta. unfold Robot.gkeep_query_contains, Robot.passes.
  destruct (run faculty ("gkeep query " +:+ sub_command)) as [results|e];
    simpl.
  - destruct (assert_each_in_spec results expected) as [Hr Ha].
    rewrite Hr, Ha. split_and!.
    + split; [intros ?; by exists results|by intros (? & [= <-] & ?)].
    + split; [intros ?; left; by exists results|].
      by intros [(? & [= <-] & ?)|?].
    + done.
    + intros ->. split; [intros _; by exists results|intros _; constructor].
  - split_and!.
    + split; [done|by intros (? & ? & _)].
    + split; [intros [= <-]; by right|].
      intros [(? & ? & _)|[= <-]]; done.
    + by intros ? [= <-].
    + intros _. split; [done|by intros [? ?]].
Qed.

(** [gkeep_query_does_not_contain] passes exactly when the query returns and
    no forbidden string occurs in its output. The empty string occurs in
    every output: a call that forbids it never passes, and raises
    [AssertionError] whenever the query returns. *)
Theorem robot_query_does_not_contain_checks_every_string
    (run : Robot.Client) (faculty sub_command : string)
    (forbidden : list string) :
  let query := run faculty ("gkeep query " +:+ sub_command) in
  let keyword :=
    Robot.gkeep_query_does_not_contain run faculty sub_command forbidden in
  (Robot.passes keyword
   ↔ ∃ results, query = Robot.Returned results
       ∧ Forall (λ e, ¬ Robot.occurs_in e results) forbidden)
  ∧ (∀ e, query = Robot.Raised e → keyword = Robot.Raised e)
  ∧ (EmptyString ∈ forbidden →
     ¬ Robot.passes keyword
     ∧ ∀ results, query = Robot.Returned results →
         keyword = Robot.Raised Robot.AssertionError).
Proof.
  cbv zeta. unfold Robot.gkeep_query_does_not_contain, Robot.passes.
  destruct (run faculty ("gkeep query " +:+ sub_command)) as [results|e];
    simpl.
  - destruct (assert_each_not_in_spec results forbidden) as [Hr Ha].
    rewrite Hr. split_and!;
      [split; [intros ?; by exists results|by intros (? & [= <-] & ?)]
      |done|].
    intros Hin.
    assert (Exists (λ e, Robot.occurs_in e results) forbidden) as Hex.
    { apply Exists_exists. exists EmptyString. split; [done|].
      apply contains_spec, contains_empty. }
    split.
    + intros Hall. apply Exists_exists in Hex as (e & He & Hocc).
      rewrite Forall_forall in Hall. by apply (Hall e He).
    + intros ? _. by apply Ha.
  - split_and!.
    + split; [done|by intros (? & ? & _)].
    + by intros ? [= <-].
    + intros _. split; [done|done].
Qed.

(** The two query keywords are exclusive on a shared string: when some
    string is both expected and forbidden, no answer of the client lets
    [gkeep_query_contains] and [gkeep_query_does_not_contain] both pass for
    one query. *)
Theorem robot_query_keywords_exclude_each_other
    (run : Robot.Client) (faculty sub_command shared : string)
    (expected forbidden : list string) :
  shared ∈ expected → shared ∈ forbidden →
  ¬ (Robot.passes
       (Robot.gkeep_query_contains run faculty sub_command expected)
     ∧ Robot.passes
         (Robot.gkeep_query_does_not_contain run faculty sub_command
            forbidden)).
Proof.
  intros Hin_e Hin_f.
  unfold Robot.passes, Robot.gkeep_query_contains,
    Robot.gkeep_query_does_not_contain.
  destruct (run faculty ("gkeep query " +:+ sub_command)) as [results|e];
    simpl; [|by intros [? _]].
  intros [Hall Hnone].
  apply assert_each_in_spec in Hall. apply assert_each_not_in_spec in Hnone.
  rewrite Forall_forall in Hall, Hnone.
  by apply (Hnone shared Hin_f), Hall.
Qed.

Lemma robot_query_keywords_exclude_each_other_witness :
  ¬ (Robot.passes
       (Robot.gkeep_query_contains Robot.sample_client "prof" "classes"
          ["cs1"; "cs2"])
     ∧ Robot.passes
         (Robot.gkeep_query_does_not_contain Robot.sample_client "prof"
            "classes" ["cs3"; "cs2"])).
Proof.
  apply (robot_query_keywords_exclude_each_other Robot.sample_client "prof"
           "classes" "cs2").
  - apply list_elem_of_In. simpl. tauto.
  - apply list_elem_of_In. simpl. tauto.
Defined.

(** ** A student's completed run *)

Lemma archive_Ok w self output s s' :
  with_lock w (path (assignment_dir self)) (_add_report w self output) s
    = (Ok tt, s') →
  ∃ repo report_path,
    trace s' = trace s ++ archive_events self repo report_path output
    ∧ os_path_exists report_path s = false
    ∧ files s' = <[report_path := output]> (files s).
Proof.
  unfold with_lock, _add_report, reports_clone, makedirs, open_write,
    git_add_all, git_commit, bind, call, finally, get, modify, ret, emit.
  intros H. run_cases H. all: simplify_eq.
  match goal with
  | H : fresh_report_path _ _ _ _ _ _ = Some ?p,
    R : w_reports_clone _ _ _ = Returns ?repo |- _ =>
      apply fresh_report_path_Some in H as [Hfresh _]; exists repo, p
  end.
  rewrite os_path_exists_add_dir in Hfresh.
  apply orb_false_iff in Hfresh as [_ Hfresh].
  split_and!; [|done|done].
  simpl. by rewrite <-!app_assoc.
Qed.

(** A completed run of a student who is not the faculty owner: once the
    test process has returned its output and the report is archived, the
    run has enqueued exactly one email (the result, to the student), written
    exactly one file besides the run script (the report, under a name that
    did not exist, holding the output), enqueued exactly one scan
    notification, for the submission's own faculty, class and assignment
    attributes, and never called [report_failure]. *)
Theorem student_run_reports_once
    (w : World) (self : Submission) (s0 s1 s2 s3 : State)
    (faculty class assignment temp_path run_sh temp_assignment : string)
    (cmd : list string) (output : string) :
  reaches_try w self s0 faculty class assignment temp_path run_sh
    temp_assignment s1 →
  run_tests_make_cmd w self assignment temp_path run_sh temp_assignment s1
    = (Ok cmd, s2) →
  w_run_command w s2 cmd = Returns output →
  username (student self) ≠ faculty →
  with_lock w (path (assignment_dir self)) (_add_report w self output)
    (log (EvEmail (result_email self class assignment output))
       (log (EvRunCommand cmd) s2))
    = (Ok tt, s3) →
  ∃ r s' before after repo report_path,
    run_tests w self s0 = (r, s')
    ∧ r ≠ Diverges
    ∧ trace s' =
        trace s0 ++ before
        ++ [EvRunCommand cmd;
            EvEmail (result_email self class assignment output)]
        ++ archive_events self repo report_path output
        ++ [EvScan (faculty_username self) (class_name (assignment_dir self))
              (assignment_name (assignment_dir self))
              (username (student self))]
        ++ after
    ∧ os_path_exists report_path s2 = false
    ∧ files s3 !! report_path = Some output
    ∧ count is_email (before ++ after) = 0
    ∧ count is_scan (before ++ after) = 0
    ∧ count is_report_recorder (before ++ after) = 0
    ∧ count is_report_failure (trace s') = count is_report_failure (trace s0)
    ∧ Forall writes_only_run_script (before ++ after).
Proof.
  intros Hreach Hmk Hcmd Hne Harchive.
  pose proof (run_tests_execute_after_run w self faculty class assignment
                temp_path run_sh temp_assignment s1 cmd s2 output Hmk Hcmd)
    as Hexec.
  rewrite bool_decide_eq_true_2 in Hexec by done.
  unfold bind at 1 in Hexec. rewrite Harchive in Hexec.
  unfold enqueue_submission_scan, emit in Hexec.
  destruct (run_tests_after_try _ _ _ _ _ _ _ _ _ _ Hreach)
    as (r & s' & s2' & prepare & body' & handler & cleanup & Hrun & Hdiv
        & Hs1 & Hs2 & Htrace & Fprep & _ & Fclean & Hcases & _).
  destruct Hcases as [[He ->]|(e' & He & _)]; rewrite Hexec in He; [|done].
  injection He as <-.
  destruct (run_tests_make_cmd_quiet_but_spawn _ _ _ _ _ _ _ _ _ Hmk)
    as (mk & Hmk_trace & Fmk).
  destruct (archive_Ok _ _ _ _ _ Harchive)
    as (repo & report_path & Harch & Hfresh & Hfiles).
  simpl in Hs2, Harch. rewrite Harch, Hmk_trace, <-!app_assoc in Hs2.
  apply app_inv_head in Hs2. subst body'.
  exists r, s', (prepare ++ mk), cleanup, repo, report_path.
  rewrite app_nil_l in Htrace.
  split_and!; [done|done| |done| | | | | |].
  - rewrite Htrace, <-!app_assoc. done.
  - rewrite Hfiles. apply lookup_insert_eq.
  - rewrite !count_app, (count_none _ prepare), (count_none _ mk),
      (count_none _ cleanup); [done|forall_from..].
  - rewrite !count_app, (count_none _ prepare), (count_none _ mk),
      (count_none _ cleanup); [done|forall_from..].
  - rewrite !count_app, (count_none _ prepare), (count_none _ mk),
      (count_none _ cleanup); [done|forall_from..].
  - rewrite Htrace, !count_app, (count_none _ prepare), (count_none _ mk),
      (count_none _ cleanup); [|forall_from..].
    change (count is_report_failure [_; _]) with 0.
    change (count is_report_failure (archive_events _ _ _ _)) with 0.
    change (count is_report_failure [_]) with 0. lia.
  - rewrite !Forall_app. split_and!; forall_from.
Qed.

Lemma student_run_reports_once_witness :
  let r := run_tests (Scenario.world (Scenario.fine HOST))
             (Scenario.submission Scenario.alice) Scenario.start in
  r.1 = Ok tt
  ∧ count is_email (trace r.2) = 1
  ∧ count is_scan (trace r.2) = 1
  ∧ count is_report_failure (trace r.2) = 0.
Proof.
  cbv zeta.
  set (k := Scenario.fine HOST).
  set (w := Scenario.world k).
  set (self := Scenario.submission Scenario.alice).
  set (cmd := _make_host_command w self Scenario.temp_sh Scenario.temp_hw).
  set (s2 := log (EvTestEnv "/home/prof/cs1/hw1/test_env.yaml")
               (Scenario.prepared k Scenario.alice)).
  destruct (student_run_reports_once w self
              Scenario.start (Scenario.prepared k Scenario.alice) s2
              (with_lock w (path (assignment_dir self))
                 (_add_report w self "all tests passed")
                 (log (EvEmail (result_email self "cs1" "hw1"
                                  "all tests passed"))
                    (log (EvRunCommand cmd) s2))).2
              "prof" "cs1" "hw1" Scenario.temp Scenario.temp_sh
              Scenario.temp_hw cmd "all tests passed")
    as (r & s' & before & after & repo & report_path & Hrun & _ & Htrace & _
        & _ & Hemail & Hscan & _ & Hfail & _).
  - repeat split; vm_compute; reflexivity.
  - vm_compute. reflexivity.
  - reflexivity.
  - discriminate.
  - vm_compute. reflexivity.
  - assert ((run_tests w self Scenario.start).1 = Ok tt) as Hok
      by (vm_compute; reflexivity).
    rewrite Hrun in Hok |- *. simpl in Hok |- *. split_and!.
    + exact Hok.
    + rewrite Htrace. rewrite !count_app in Hemail. rewrite !count_app.
      change (count is_email (trace Scenario.start)) with 0.
      change (count is_email [_; _]) with 1.
      change (count is_email (archive_events _ _ _ _)) with 0.
      change (count is_email [_]) with 0. lia.
    + rewrite Htrace. rewrite !count_app in Hscan. rewrite !count_app.
      change (count is_scan (trace Scenario.start)) with 0.
      change (count is_scan [_; _]) with 0.
      change (count is_scan (archive_events _ _ _ _)) with 0.
      change (count is_scan [_]) with 1. lia.
    + by rewrite Hfail.
Defined.

(** ** The lock is never held across a test process *)

















(** ** The image is pulled before the container runs *)

Lemma after_email_no_spawn w self f output :
  emits (λ ev, is_spawn ev = false ∧ is_email ev = false)
    (if bool_decide (username (student self) ≠ f)
     then
       with_lock w (path (assignment_dir self)) (_add_report w self output) ;;;
       enqueue_submission_scan (faculty_username self)
         (class_name (assignment_dir self))
         (assignment_name (assignment_dir self))
         (username (student self))
     else ret tt).
Proof. unfold _add_report. emits_auto; done. Qed.

(** For a docker environment the image is pulled first, by a process of its
    own. When the pull raises, the container is never run and the failure
    is reported with the exception of the pull. When it returns, whatever it
    printed is dropped: the test command runs next, and the result email
    carries the output of the test command; the pull and the test command
    are the only two processes of the run. *)
Theorem docker_image_is_pulled_before_the_run
    (w : World) (self : Submission) (s0 s1 : State)
    (faculty class assignment temp_path run_sh temp_assignment : string)
    (test_env : TestEnv) :
  reaches_try w self s0 faculty class assignment temp_path run_sh
    temp_assignment s1 →
  w_TestEnv w s1 (test_env_path (assignment_dir self)) = Returns test_env →
  type test_env = DOCKER →
  let resolved := log (EvTestEnv (test_env_path (assignment_dir self))) s1 in
  let pull := ["docker"; "pull"; image test_env] in
  let cmd :=
    _make_docker_command self temp_path assignment (image test_env) in
  (∀ e, w_run_command w resolved pull = Raises e →
     ∃ r s' before after,
       run_tests w self s0 = (r, s')
       ∧ trace s' =
           trace s0 ++ before
           ++ [EvTestEnv (test_env_path (assignment_dir self));
               EvRunCommand pull]
           ++ failure_events assignment (student self) (faculty_email self) e
           ++ after
       ∧ count is_spawn (before ++ after) = 0
       ∧ count is_email (before ++ after) = 0)
  ∧ (∀ pulled output,
       w_run_command w resolved pull = Returns pulled →
       w_run_command w (log (EvRunCommand pull) resolved) cmd
         = Returns output →
       ∃ r s' before after,
         run_tests w self s0 = (r, s')
         ∧ trace s' =
             trace s0 ++ before
             ++ [EvTestEnv (test_env_path (assignment_dir self));
                 EvRunCommand pull; EvRunCommand cmd;
                 EvEmail (result_email self class assignment output)]
             ++ after
         ∧ count is_spawn (before ++ after) = 0).
Proof.
  intros Hreach Henv Htype. cbv zeta.
  destruct (run_tests_after_try _ _ _ _ _ _ _ _ _ _ Hreach)
    as (r & s' & s2 & prepare & body' & handler & cleanup & Hrun & _ & Hs1
        & Hs2 & Htrace & Fprep & _ & Fclean & Hcases & _).
  split.
  - intros e Hpull.
    assert (run_tests_execute w self faculty class assignment temp_path
              run_sh temp_assignment s1
            = (Err e,
               log (EvRunCommand ["docker"; "pull"; image test_env])
                 (log (EvTestEnv (test_env_path (assignment_dir self))) s1)))
      as Hexec.
    { unfold run_tests_execute, run_tests_make_cmd, TestEnv_load, run_command,
        bind, call.
      by rewrite Henv, Htype, Hpull. }
    destruct Hcases as [[He _]|(e' & He & ->)]; rewrite Hexec in He; [done|].
    injection He as <- <-. simpl in Hs2. rewrite <-!app_assoc in Hs2.
    apply app_inv_head in Hs2 as <-.
    exists r, s', prepare, cleanup. split_and!; [done|done| |].
    + rewrite !count_app, (count_none _ prepare), (count_none _ cleanup);
        [done|forall_from..].
    + rewrite !count_app, (count_none _ prepare), (count_none _ cleanup);
        [done|forall_from..].
  - intros pulled output Hpull Hcmd.
    assert (run_tests_make_cmd w self assignment temp_path run_sh
              temp_assignment s1
            = (Ok (_make_docker_command self temp_path assignment
                     (image test_env)),
               log (EvRunCommand ["docker"; "pull"; image test_env])
                 (log (EvTestEnv (test_env_path (assignment_dir self))) s1)))
      as Hmk.
    { unfold run_tests_make_cmd, TestEnv_load, run_command, bind, call.
      by rewrite Henv, Htype, Hpull. }
    pose proof (run_tests_execute_after_run w self faculty class assignment
                  temp_path run_sh temp_assignment s1 _ _ output Hmk Hcmd)
      as Hexec.
    assert (∃ rest, trace s2 =
                      trace s1
                      ++ [EvTestEnv (test_env_path (assignment_dir self));
                          EvRunCommand ["docker"; "pull"; image test_env];
                          EvRunCommand
                            (_make_docker_command self temp_path assignment
                               (image test_env));
                          EvEmail (result_email self class assignment output)]
                      ++ rest
                    ∧ Forall (λ ev, is_spawn ev = false ∧ is_email ev = false)
                        rest)
      as (rest & Hrest & Frest).
    { destruct Hcases as [[He _]|(e & He & _)]; rewrite Hexec in He;
        apply after_email_no_spawn in He as (rest & Er & Fr);
        exists rest; (split; [|done]); rewrite Er; simpl;
        by rewrite <-!app_assoc. }
    rewrite Hs2 in Hrest. apply app_inv_head in Hrest as ->.
    exists r, s', prepare, (rest ++ handler ++ cleanup).
    split_and!; [done| |].
    + rewrite Htrace, <-!app_assoc. done.
    + rewrite !count_app, (count_none _ prepare), (count_none _ rest),
        (count_none _ cleanup); [|forall_from..].
      destruct Hcases as [[_ ->]|(e & _ & ->)]; done.
Qed.

Lemma docker_image_is_pulled_before_the_run_witness :
  let r := run_tests (Scenario.world (Scenario.fine DOCKER))
             (Scenario.submission Scenario.alice) Scenario.start in
  count is_spawn (trace r.2) = 2 ∧ count is_email (trace r.2) = 1.
Proof.
  cbv zeta.
  set (k := Scenario.fine DOCKER).
  set (w := Scenario.world k).
  set (self := Scenario.submission Scenario.alice).
  destruct (docker_image_is_pulled_before_the_run w self Scenario.start
              (Scenario.prepared k Scenario.alice) "prof" "cs1" "hw1"
              Scenario.temp Scenario.temp_sh Scenario.temp_hw
              (Scenario.env DOCKER)) as [_ Hpulled].
  - repeat split; vm_compute; reflexivity.
  - reflexivity.
  - reflexivity.
  - destruct (Hpulled "all tests passed" "all tests passed" eq_refl eq_refl)
      as (r & s' & before & after & Hrun & Htrace & Hspawn).
    assert (count is_email (trace (run_tests w self Scenario.start).2) = 1)
      as Hemail by (vm_compute; reflexivity).
    rewrite Hrun in Hemail |- *. simpl in Hemail |- *. split; [|exact Hemail].
    rewrite Htrace. rewrite !count_app in Hspawn. rewrite !count_app.
    change (count is_spawn (trace Scenario.start)) with 0.
    change (count is_spawn [_; _; _; _]) with 2. lia.
Defined.

(** ** The extra arguments of firejail *)







(** ** The run script is installed whole or not at all *)



(** ** The run script of a prepared run *)



(** ** Worked examples for the robot keywords *)

Lemma robot_succeeds_and_fails_are_opposite_witness :
  Robot.passes (Robot.gkeep_add_fails Robot.sample_client "prof" "cs1")
  ∧ ¬ Robot.passes (Robot.gkeep_add_succeeds Robot.sample_client "prof" "cs1").
Proof.
  destruct (robot_succeeds_and_fails_are_opposite Robot.sample_client "prof"
              "cs1" "hw1" None) as (Hadd & _ & _ & _ & _ & _ & Hgeneral).
  destruct (Hgeneral _ _ _ _ Hadd) as (Hnot_both & _ & Hfails).
  assert (Robot.passes (Robot.gkeep_add_fails Robot.sample_client "prof" "cs1"))
    as Hpass by (apply Hfails; eexists; reflexivity).
  split; [exact Hpass|]. intros Hs. by apply Hnot_both.
Defined.

Lemma robot_query_contains_checks_every_string_witness :
  Robot.passes
    (Robot.gkeep_query_contains Robot.sample_client "prof" "classes"
       ["cs1"; "cs2"])
  ∧ Robot.gkeep_query_contains Robot.sample_client "prof" "classes" ["cs3"]
    = Robot.Raised Robot.AssertionError.
Proof.
  split.
  - destruct (robot_query_contains_checks_every_string Robot.sample_client
                "prof" "classes" ["cs1"; "cs2"]) as (Hpass & _).
    apply Hpass. exists "cs1 cs2". split; [reflexivity|].
    repeat constructor; apply contains_spec; reflexivity.
  - destruct (robot_query_contains_checks_every_string Robot.sample_client
                "prof" "classes" ["cs3"]) as (_ & Hraise & _).
    apply Hraise. left. exists "cs1 cs2". split; [reflexivity|].
    constructor. intros H%contains_spec. discriminate H.
Defined.

Lemma robot_query_does_not_contain_checks_every_string_witness :
  ¬ Robot.passes
      (Robot.gkeep_query_does_not_contain Robot.sample_client "prof" "classes"
         ["cs3"; EmptyString]).
Proof.
  destruct (robot_query_does_not_contain_checks_every_string
              Robot.sample_client "prof" "classes" ["cs3"; EmptyString])
    as (_ & _ & Hempty).
  apply Hempty. apply list_elem_of_In. simpl. tauto.
Defined.
